(** * Capability registry and value-conversion registry

    A shallow embedding of [src/types/capability-registry.ts] (with the two
    enumerations of [src/types/unified-device.ts]) and the properties of the
    registry that the specification states.

    - JavaScript numbers are IEEE-754 binary64 values: Rocq's primitive
      [float], whose operations round to nearest, ties to even, as
      JavaScript's do.
    - A JavaScript [Map] is an insertion-ordered association list with
      string keys: [set] on a present key replaces the value in place, [set]
      on an absent key appends.
    - The static fields of the two classes and the console form one
      [World]; every method is a computation in a state-and-exception monad
      [Js] over it. *)

From Stdlib Require Import ZArith Bool List Ascii String Lia.
From Stdlib Require Import PrimFloat SpecFloat FloatOps.
From Stdlib Require Uint63 DecimalString.
Import ListNotations.

Set Implicit Arguments.
#[local] Set Warnings "-inexact-float,-register-all".

Local Open Scope string_scope.
Local Open Scope list_scope.

(** ** The enumerations of [unified-device.ts] *)

Inductive Platform : Type :=
| SMARTTHINGS
| TUYA
| LUTRON.

(** The string value of each member of the [Platform] enum. *)
Definition Platform_value (p : Platform) : string :=
  match p with
  | SMARTTHINGS => "smartthings"
  | TUYA => "tuya"
  | LUTRON => "lutron"
  end.

Inductive DeviceCapability : Type :=
(* control *)
| SWITCH | DIMMER | COLOR | COLOR_TEMPERATURE | THERMOSTAT | LOCK | SHADE
| FAN | VALVE | ALARM | DOOR_CONTROL
(* sensors *)
| TEMPERATURE_SENSOR | HUMIDITY_SENSOR | MOTION_SENSOR | CONTACT_SENSOR
| OCCUPANCY_SENSOR | ILLUMINANCE_SENSOR | BATTERY | AIR_QUALITY_SENSOR
| WATER_LEAK_SENSOR | SMOKE_DETECTOR | BUTTON | PRESSURE_SENSOR
| CO_DETECTOR | SOUND_SENSOR
(* composite *)
| ENERGY_METER | SPEAKER | MEDIA_PLAYER | CAMERA | ROBOT_VACUUM | IR_BLASTER.

(** The string value of each member of the [DeviceCapability] enum. *)
Definition DeviceCapability_value (c : DeviceCapability) : string :=
  match c with
  | SWITCH => "switch"
  | DIMMER => "dimmer"
  | COLOR => "color"
  | COLOR_TEMPERATURE => "colorTemperature"
  | THERMOSTAT => "thermostat"
  | LOCK => "lock"
  | SHADE => "shade"
  | FAN => "fan"
  | VALVE => "valve"
  | ALARM => "alarm"
  | DOOR_CONTROL => "doorControl"
  | TEMPERATURE_SENSOR => "temperatureSensor"
  | HUMIDITY_SENSOR => "humiditySensor"
  | MOTION_SENSOR => "motionSensor"
  | CONTACT_SENSOR => "contactSensor"
  | OCCUPANCY_SENSOR => "occupancySensor"
  | ILLUMINANCE_SENSOR => "illuminanceSensor"
  | BATTERY => "battery"
  | AIR_QUALITY_SENSOR => "airQualitySensor"
  | WATER_LEAK_SENSOR => "waterLeakSensor"
  | SMOKE_DETECTOR => "smokeDetector"
  | BUTTON => "button"
  | PRESSURE_SENSOR => "pressureSensor"
  | CO_DETECTOR => "coDetector"
  | SOUND_SENSOR => "soundSensor"
  | ENERGY_METER => "energyMeter"
  | SPEAKER => "speaker"
  | MEDIA_PLAYER => "mediaPlayer"
  | CAMERA => "camera"
  | ROBOT_VACUUM => "robotVacuum"
  | IR_BLASTER => "irBlaster"
  end.

(** The members of the enum, in declaration order. *)
Definition all_capabilities : list DeviceCapability :=
  [ SWITCH; DIMMER; COLOR; COLOR_TEMPERATURE; THERMOSTAT; LOCK; SHADE; FAN;
    VALVE; ALARM; DOOR_CONTROL;
    TEMPERATURE_SENSOR; HUMIDITY_SENSOR; MOTION_SENSOR; CONTACT_SENSOR;
    OCCUPANCY_SENSOR; ILLUMINANCE_SENSOR; BATTERY; AIR_QUALITY_SENSOR;
    WATER_LEAK_SENSOR; SMOKE_DETECTOR; BUTTON; PRESSURE_SENSOR; CO_DETECTOR;
    SOUND_SENSOR;
    ENERGY_METER; SPEAKER; MEDIA_PLAYER; CAMERA; ROBOT_VACUUM; IR_BLASTER ].

Definition Platform_eqb (p q : Platform) : bool :=
  match p, q with
  | SMARTTHINGS, SMARTTHINGS | TUYA, TUYA | LUTRON, LUTRON => true
  | _, _ => false
  end.

Definition DeviceCapability_eq_dec (c d : DeviceCapability) : {c = d} + {c <> d}.
Proof. decide equality. Defined.

Definition DeviceCapability_eqb (c d : DeviceCapability) : bool :=
  if DeviceCapability_eq_dec c d then true else false.

(** ** JavaScript values, errors and numbers *)

(** The runtime values that reach the registries: the data values that a
    caller passes as [unknown], and that [JSON.parse] can produce. *)
Inductive JsValue : Type :=
| JUndefined
| JNull
| JBool (b : bool)
| JNum (x : float)
| JStr (s : string)
| JArr (items : list JsValue)
| JObj (fields : list (string * JsValue)).

(** The error classes a converter of this module can raise. *)
Inductive JsError : Type :=
| TypeError
| SyntaxError
| RangeError
| OtherError (name : string).

(** The completion of an evaluation: a value, or a thrown error. *)
Inductive Completion (A : Type) : Type :=
| Normal (a : A)
| Throw (e : JsError).

Arguments Normal {A} a.
Arguments Throw {A} e.

Definition cbind {A B} (c : Completion A) (k : A -> Completion B) : Completion B :=
  match c with
  | Normal a => k a
  | Throw e => Throw e
  end.

Module JsNumber.

(** The number whose value is the integer [z], for [|z| < 2^63]. *)
Definition of_Z (z : Z) : float :=
  match z with
  | Z0 => PrimFloat.zero
  | Zpos _ => PrimFloat.of_uint63 (Uint63.of_Z z)
  | Zneg p => PrimFloat.opp (PrimFloat.of_uint63 (Uint63.of_Z (Zpos p)))
  end.

(** [Math.round]: the integer nearest to [x], a tie going towards
    +infinity; NaN, the infinities and the zeros are returned as they are,
    and a negative [x] no smaller than -0.5 gives -0.  The rounding is done
    on the exact value [(-1)^s * m * 2^e] of [x], so no intermediate
    [x + 0.5] is rounded. *)
Definition Math_round (x : float) : float :=
  match Prim2SF x with
  | S754_finite s m e =>
      if (0 <=? e)%Z then x
      else
        let d := (2 ^ (- e))%Z in
        let n := if s then Zneg m else Zpos m in
        let r := ((2 * n + d) / (2 * d))%Z in
        if (r =? 0)%Z then (if s then PrimFloat.neg_zero else PrimFloat.zero)
        else of_Z r
  | _ => x
  end.

End JsNumber.

Import JsNumber.

(** ** JavaScript [Map] with string keys *)

Module JsMap.

Definition t (V : Type) : Type := list (string * V).

Definition empty {V} : t V := [].

Fixpoint get {V} (k : string) (m : t V) : option V :=
  match m with
  | [] => None
  | (k', v) :: rest => if String.eqb k' k then Some v else get k rest
  end.

Definition has {V} (k : string) (m : t V) : bool :=
  match get k m with Some _ => true | None => false end.

(** [set] keeps the position of a key that is already present. *)
Fixpoint set {V} (k : string) (v : V) (m : t V) : t V :=
  match m with
  | [] => [(k, v)]
  | (k', v') :: rest =>
      if String.eqb k' k then (k, v) :: rest else (k', v') :: set k v rest
  end.

Definition size {V} (m : t V) : nat := List.length m.

Definition keys {V} (m : t V) : list string := List.map fst m.

End JsMap.

(** [key.startsWith(prefix)] *)
Definition startsWith (key prefix : string) : bool := String.prefix prefix key.

(** ** Records of [capability-registry.ts] *)

Definition ValueConverter : Type := JsValue -> Completion JsValue.

Record PlatformCapabilityMapping : Type := {
  platform : Platform;
  platformCapability : string;
  unifiedCapability : DeviceCapability;
  conversionRequired : bool;
  notes : option string;
  deprecated : option bool;
  deprecationMessage : option string
}.

Record ValueConversionMapping : Type := {
  vc_platform : Platform;
  vc_capability : DeviceCapability;
  vc_attribute : string;
  vc_toPlatform : ValueConverter;
  vc_fromPlatform : ValueConverter;
  vc_description : string
}.

(** ** The world: the static fields of both classes, and the console *)

Record World : Type := {
  mappings : JsMap.t PlatformCapabilityMapping;
  reverseMappings : JsMap.t string;
  conversions : JsMap.t ValueConversionMapping;
  console : list string
}.

Definition empty_world : World :=
  {| mappings := JsMap.empty; reverseMappings := JsMap.empty;
     conversions := JsMap.empty; console := [] |}.

(** ** The monad of method bodies *)

Definition Js (A : Type) : Type := World -> Completion A * World.

Definition ret {A} (a : A) : Js A := fun w => (Normal a, w).

Definition bind {A B} (c : Js A) (k : A -> Js B) : Js B :=
  fun w =>
    match c w with
    | (Normal a, w') => k a w'
    | (Throw e, w') => (Throw e, w')
    end.

Definition read {A} (f : World -> A) : Js A := fun w => (Normal (f w), w).

Definition update (f : World -> World) : Js unit := fun w => (Normal tt, f w).

(** Running a pure callback that may throw. *)
Definition call {A} (c : Completion A) : Js A := fun w => (c, w).

Declare Scope js_scope.
Delimit Scope js_scope with js.
Notation "x <- c1 ;; c2" := (bind c1 (fun x => c2))
  (at level 100, c1 at next level, right associativity) : js_scope.
Notation "c1 ;; c2" := (bind c1 (fun _ => c2))
  (at level 100, right associativity) : js_scope.
Local Open Scope js_scope.

(** The world a computation leaves, and its completion. *)
Definition exec {A} (c : Js A) (w : World) : World := snd (c w).
Definition result {A} (c : Js A) (w : World) : Completion A := fst (c w).

(** JavaScript truthiness of an optional boolean and of an optional string. *)
Definition truthy_bool (b : option bool) : bool :=
  match b with Some true => true | _ => false end.

Definition truthy_string (s : option string) : bool :=
  match s with
  | Some EmptyString | None => false
  | Some _ => true
  end.

Definition console_warn (line : string) : Js unit :=
  update (fun w =>
    {| mappings := mappings w; reverseMappings := reverseMappings w;
       conversions := conversions w; console := console w ++ [line] |}).

(** ** class CapabilityRegistry *)

Module CapabilityRegistry.

Definition makeKey (platform : Platform) (capability : string) : string :=
  Platform_value platform ++ ":" ++ capability.

Definition register (mapping : PlatformCapabilityMapping) : Js unit :=
  let key := makeKey (platform mapping) (platformCapability mapping) in
  let reverseKey :=
    makeKey (platform mapping) (DeviceCapability_value (unifiedCapability mapping)) in
  update (fun w =>
    {| mappings := JsMap.set key mapping (mappings w);
       reverseMappings := reverseMappings w;
       conversions := conversions w; console := console w |}) ;;
  update (fun w =>
    {| mappings := mappings w;
       reverseMappings :=
         JsMap.set reverseKey (platformCapability mapping) (reverseMappings w);
       conversions := conversions w; console := console w |}) ;;
  if truthy_bool (deprecated mapping) && truthy_string (deprecationMessage mapping)
  then
    console_warn
      ("[CapabilityRegistry] Deprecated capability registered: " ++ key ++ " - "
         ++ match deprecationMessage mapping with Some s => s | None => "" end)
  else ret tt.

Definition getUnifiedCapability (platform : Platform) (platformCapability : string)
  : Js (option DeviceCapability) :=
  let key := makeKey platform platformCapability in
  mapping <- read (fun w => JsMap.get key (mappings w)) ;;
  ret (option_map unifiedCapability mapping).

Definition getPlatformCapability (platform : Platform) (unifiedCapability : DeviceCapability)
  : Js (option string) :=
  let reverseKey := makeKey platform (DeviceCapability_value unifiedCapability) in
  read (fun w => JsMap.get reverseKey (reverseMappings w)).

Definition isPlatformSupported (platform : Platform) (capability : DeviceCapability)
  : Js bool :=
  let reverseKey := makeKey platform (DeviceCapability_value capability) in
  read (fun w => JsMap.has reverseKey (reverseMappings w)).

(** The [for ... of this.mappings] loop, pushing onto [capabilities]. *)
Definition getSupportedCapabilities (platform : Platform) : Js (list DeviceCapability) :=
  entries <- read mappings ;;
  ret (fold_left
         (fun capabilities entry =>
            let '(key, mapping) := entry in
            if startsWith key (Platform_value platform ++ ":")
            then capabilities ++ [unifiedCapability mapping]
            else capabilities)
         entries []).

Definition getPlatformCapabilities (platform : Platform) : Js (list string) :=
  entries <- read mappings ;;
  ret (fold_left
         (fun capabilities entry =>
            let '(key, mapping) := entry in
            if startsWith key (Platform_value platform ++ ":")
            then capabilities ++ [platformCapability mapping]
            else capabilities)
         entries []).

Definition getMapping (platform : Platform) (platformCapability : string)
  : Js (option PlatformCapabilityMapping) :=
  let key := makeKey platform platformCapability in
  read (fun w => JsMap.get key (mappings w)).

Definition clear : Js unit :=
  update (fun w =>
    {| mappings := JsMap.empty; reverseMappings := reverseMappings w;
       conversions := conversions w; console := console w |}) ;;
  update (fun w =>
    {| mappings := mappings w; reverseMappings := JsMap.empty;
       conversions := conversions w; console := console w |}).

Definition getMappingCount : Js nat :=
  read (fun w => JsMap.size (mappings w)).

End CapabilityRegistry.

(** ** class ValueConversionRegistry *)

Module ValueConversionRegistry.

Definition makeKey (platform : Platform) (capability : DeviceCapability)
           (attribute : string) : string :=
  Platform_value platform ++ ":" ++ DeviceCapability_value capability ++ ":" ++ attribute.

Definition register (conversion : ValueConversionMapping) : Js unit :=
  let key :=
    makeKey (vc_platform conversion) (vc_capability conversion) (vc_attribute conversion) in
  update (fun w =>
    {| mappings := mappings w; reverseMappings := reverseMappings w;
       conversions := JsMap.set key conversion (conversions w);
       console := console w |}).

Definition toPlatform (platform : Platform) (capability : DeviceCapability)
           (attribute : string) (value : JsValue) : Js JsValue :=
  let key := makeKey platform capability attribute in
  conversion <- read (fun w => JsMap.get key (conversions w)) ;;
  match conversion with
  | None => ret value
  | Some conversion => call (vc_toPlatform conversion value)
  end.

Definition fromPlatform (platform : Platform) (capability : DeviceCapability)
           (attribute : string) (value : JsValue) : Js JsValue :=
  let key := makeKey platform capability attribute in
  conversion <- read (fun w => JsMap.get key (conversions w)) ;;
  match conversion with
  | None => ret value
  | Some conversion => call (vc_fromPlatform conversion value)
  end.

Definition hasConversion (platform : Platform) (capability : DeviceCapability)
           (attribute : string) : Js bool :=
  let key := makeKey platform capability attribute in
  read (fun w => JsMap.has key (conversions w)).

Definition getConversion (platform : Platform) (capability : DeviceCapability)
           (attribute : string) : Js (option ValueConversionMapping) :=
  let key := makeKey platform capability attribute in
  read (fun w => JsMap.get key (conversions w)).

Definition clear : Js unit :=
  update (fun w =>
    {| mappings := mappings w; reverseMappings := reverseMappings w;
       conversions := JsMap.empty; console := console w |}).

Definition getConversionCount : Js nat :=
  read (fun w => JsMap.size (conversions w)).

End ValueConversionRegistry.

(** ** The host language

    What the converters call in the JavaScript runtime and this repository
    does not define: the parsing and printing of numbers and of JSON.  They
    are parameters of the development. *)

Record Host : Type := {
  (** [StringToNumber]: the number a string denotes, NaN when it denotes none. *)
  StringToNumber : string -> float;
  (** [ToNumber] of an array or of an object (through [ToPrimitive]). *)
  ObjectToNumber : JsValue -> Completion float;
  (** [x.toFixed(digits)] for a number [x]. *)
  Number_toFixed : float -> Z -> string;
  (** [JSON.parse(text)]: the value, or the [SyntaxError] raised. *)
  JSON_parse : JsValue -> Completion JsValue;
  (** [JSON.stringify(value)]. *)
  JSON_stringify : JsValue -> JsValue
}.

Section Converters.

Variable host : Host.

(** [ToNumber], the coercion that [*], [/] and [Math.round] apply to
    their operands. *)
Definition ToNumber (v : JsValue) : Completion float :=
  match v with
  | JUndefined => Normal PrimFloat.nan
  | JNull => Normal PrimFloat.zero
  | JBool true => Normal PrimFloat.one
  | JBool false => Normal PrimFloat.zero
  | JNum x => Normal x
  | JStr s => Normal (StringToNumber host s)
  | JArr _ | JObj _ => ObjectToNumber host v
  end.

Fixpoint own_field (name : string) (fields : list (string * JsValue)) : option JsValue :=
  match fields with
  | [] => None
  | (k, v) :: rest => if String.eqb k name then Some v else own_field name rest
  end.

(** [value.name], for a [name] that no built-in prototype defines (it is
    used at [h], [s] and [v]): reading a property of [undefined] or [null]
    raises a [TypeError]; an object gives its own field; anything else
    gives [undefined]. *)
Definition get_field (value : JsValue) (name : string) : Completion JsValue :=
  match value with
  | JUndefined | JNull => Throw TypeError
  | JObj fields =>
      match own_field name fields with
      | Some v => Normal v
      | None => Normal JUndefined
      end
  | _ => Normal JUndefined
  end.

(** [value.toFixed(digits)]: only numbers have a callable [toFixed]. *)
Definition call_toFixed (value : JsValue) (digits : Z) : Completion JsValue :=
  match value with
  | JNum x => Normal (JStr (Number_toFixed host x digits))
  | _ => Throw TypeError
  end.

(** *** The converters registered by [initializeValueConversions] *)

(** [(value) => Math.round(value * 10)] *)
Definition tuya_level_toPlatform : ValueConverter :=
  fun value => cbind (ToNumber value) (fun x => Normal (JNum (Math_round (x * 10)))).

(** [(value) => Math.round(value / 10)] *)
Definition tuya_level_fromPlatform : ValueConverter :=
  fun value => cbind (ToNumber value) (fun x => Normal (JNum (Math_round (x / 10)))).

(** [(value) => Math.round(value / 3.6)] *)
Definition smartthings_hue_toPlatform : ValueConverter :=
  fun value => cbind (ToNumber value) (fun x => Normal (JNum (Math_round (x / 3.6)))).

(** [(value) => Math.round(value * 3.6)] *)
Definition smartthings_hue_fromPlatform : ValueConverter :=
  fun value => cbind (ToNumber value) (fun x => Normal (JNum (Math_round (x * 3.6)))).

(** [(value) => JSON.stringify({h: Math.round(value.h), s: Math.round(value.s),
      v: Math.round(value.v * 2.55)})] *)
Definition tuya_color_toPlatform : ValueConverter :=
  fun value =>
    cbind (get_field value "h") (fun vh =>
    cbind (ToNumber vh) (fun h =>
    cbind (get_field value "s") (fun vs =>
    cbind (ToNumber vs) (fun s =>
    cbind (get_field value "v") (fun vv =>
    cbind (ToNumber vv) (fun v =>
    Normal (JSON_stringify host
              (JObj [ ("h", JNum (Math_round h));
                      ("s", JNum (Math_round s));
                      ("v", JNum (Math_round (v * 2.55))) ])))))))).

(** [(value) => { const parsed = JSON.parse(value);
      return {h: parsed.h, s: parsed.s, v: Math.round(parsed.v / 2.55)}; }] *)
Definition tuya_color_fromPlatform : ValueConverter :=
  fun value =>
    cbind (JSON_parse host value) (fun parsed =>
    cbind (get_field parsed "h") (fun h =>
    cbind (get_field parsed "s") (fun s =>
    cbind (get_field parsed "v") (fun vv =>
    cbind (ToNumber vv) (fun v =>
    Normal (JObj [ ("h", h); ("s", s); ("v", JNum (Math_round (v / 2.55))) ])))))).

(** [(value) => Number(value.toFixed(2))] *)
Definition lutron_level_toPlatform : ValueConverter :=
  fun value =>
    cbind (call_toFixed value 2) (fun fixed =>
    cbind (ToNumber fixed) (fun x => Normal (JNum x))).

(** [(value) => Math.round(value)] *)
Definition lutron_level_fromPlatform : ValueConverter :=
  fun value => cbind (ToNumber value) (fun x => Normal (JNum (Math_round x))).

Definition initializeValueConversions : Js unit :=
  ValueConversionRegistry.register
    {| vc_platform := TUYA; vc_capability := DIMMER; vc_attribute := "level";
       vc_toPlatform := tuya_level_toPlatform;
       vc_fromPlatform := tuya_level_fromPlatform;
       vc_description := "Tuya brightness scale: 0-1000 ↔ 0-100" |} ;;
  ValueConversionRegistry.register
    {| vc_platform := SMARTTHINGS; vc_capability := COLOR; vc_attribute := "hue";
       vc_toPlatform := smartthings_hue_toPlatform;
       vc_fromPlatform := smartthings_hue_fromPlatform;
       vc_description := "SmartThings hue: 0-100% ↔ 0-360 degrees" |} ;;
  ValueConversionRegistry.register
    {| vc_platform := TUYA; vc_capability := COLOR; vc_attribute := "color";
       vc_toPlatform := tuya_color_toPlatform;
       vc_fromPlatform := tuya_color_fromPlatform;
       vc_description := "Tuya color: HSV JSON string ↔ HSV object" |} ;;
  ValueConversionRegistry.register
    {| vc_platform := LUTRON; vc_capability := DIMMER; vc_attribute := "level";
       vc_toPlatform := lutron_level_toPlatform;
       vc_fromPlatform := lutron_level_fromPlatform;
       vc_description := "Lutron output: Round 0.00-100.00 to 0-100" |}.

End Converters.

(** ** The capability table registered by [initializeCapabilityMappings] *)

(** A mapping literal that gives neither notes nor a deprecation. *)
Definition plain (p : Platform) (name : string) (u : DeviceCapability) (conv : bool)
  : PlatformCapabilityMapping :=
  {| platform := p; platformCapability := name; unifiedCapability := u;
     conversionRequired := conv; notes := None;
     deprecated := None; deprecationMessage := None |}.

(** A mapping literal with [notes]. *)
Definition noted (p : Platform) (name : string) (u : DeviceCapability) (conv : bool)
           (note : string) : PlatformCapabilityMapping :=
  {| platform := p; platformCapability := name; unifiedCapability := u;
     conversionRequired := conv; notes := Some note;
     deprecated := None; deprecationMessage := None |}.

(** A mapping literal with [deprecated: true] and a [deprecationMessage]. *)
Definition deprecated_mapping (p : Platform) (name : string) (u : DeviceCapability)
           (conv : bool) (message : string) : PlatformCapabilityMapping :=
  {| platform := p; platformCapability := name; unifiedCapability := u;
     conversionRequired := conv; notes := None;
     deprecated := Some true; deprecationMessage := Some message |}.

Definition dquote : string := String (Ascii.ascii_of_nat 34) EmptyString.

Definition initializeCapabilityMappings : Js unit :=
  CapabilityRegistry.register (plain SMARTTHINGS "switch" SWITCH false) ;;
  CapabilityRegistry.register (plain SMARTTHINGS "switchLevel" DIMMER false) ;;
  CapabilityRegistry.register (noted SMARTTHINGS "colorControl" COLOR true "Hue: 0-100 (%) → 0-360 (degrees)") ;;
  CapabilityRegistry.register (plain SMARTTHINGS "colorTemperature" COLOR_TEMPERATURE false) ;;
  CapabilityRegistry.register (noted SMARTTHINGS "thermostat" THERMOSTAT false "Composite of 8 SmartThings capabilities") ;;
  CapabilityRegistry.register (plain SMARTTHINGS "lock" LOCK false) ;;
  CapabilityRegistry.register (plain SMARTTHINGS "windowShade" SHADE false) ;;
  CapabilityRegistry.register (plain SMARTTHINGS "fanSpeed" FAN false) ;;
  CapabilityRegistry.register (plain SMARTTHINGS "valve" VALVE false) ;;
  CapabilityRegistry.register (plain SMARTTHINGS "alarm" ALARM false) ;;
  CapabilityRegistry.register (plain SMARTTHINGS "doorControl" DOOR_CONTROL false) ;;
  CapabilityRegistry.register (noted SMARTTHINGS "garageDoorControl" DOOR_CONTROL false "Alias for doorControl") ;;
  CapabilityRegistry.register (plain SMARTTHINGS "temperatureMeasurement" TEMPERATURE_SENSOR false) ;;
  CapabilityRegistry.register (plain SMARTTHINGS "relativeHumidityMeasurement" HUMIDITY_SENSOR false) ;;
  CapabilityRegistry.register (plain SMARTTHINGS "motionSensor" MOTION_SENSOR false) ;;
  CapabilityRegistry.register (plain SMARTTHINGS "contactSensor" CONTACT_SENSOR false) ;;
  CapabilityRegistry.register (plain SMARTTHINGS "illuminanceMeasurement" ILLUMINANCE_SENSOR false) ;;
  CapabilityRegistry.register (plain SMARTTHINGS "battery" BATTERY false) ;;
  CapabilityRegistry.register (plain SMARTTHINGS "airQualitySensor" AIR_QUALITY_SENSOR false) ;;
  CapabilityRegistry.register (plain SMARTTHINGS "waterSensor" WATER_LEAK_SENSOR false) ;;
  CapabilityRegistry.register (plain SMARTTHINGS "smokeDetector" SMOKE_DETECTOR false) ;;
  CapabilityRegistry.register (plain SMARTTHINGS "button" BUTTON false) ;;
  CapabilityRegistry.register (plain SMARTTHINGS "pressureMeasurement" PRESSURE_SENSOR false) ;;
  CapabilityRegistry.register (plain SMARTTHINGS "carbonMonoxideDetector" CO_DETECTOR false) ;;
  CapabilityRegistry.register (plain SMARTTHINGS "soundPressureLevel" SOUND_SENSOR false) ;;
  CapabilityRegistry.register (noted SMARTTHINGS "powerMeter" ENERGY_METER false "Composite with energyMeter") ;;
  CapabilityRegistry.register (plain SMARTTHINGS "audioVolume" SPEAKER false) ;;
  CapabilityRegistry.register (plain SMARTTHINGS "mediaPlayback" MEDIA_PLAYER false) ;;
  CapabilityRegistry.register (plain SMARTTHINGS "videoStream" CAMERA false) ;;
  CapabilityRegistry.register (plain SMARTTHINGS "robotCleanerMovement" ROBOT_VACUUM false) ;;
  CapabilityRegistry.register (plain SMARTTHINGS "infraredLevel" IR_BLASTER false) ;;
  CapabilityRegistry.register (deprecated_mapping SMARTTHINGS "momentary" BUTTON false ("Use " ++ dquote ++ "button" ++ dquote ++ " capability instead")) ;;
  CapabilityRegistry.register (plain TUYA "switch_led" SWITCH false) ;;
  CapabilityRegistry.register (noted TUYA "bright_value" DIMMER true "0-1000 → 0-100") ;;
  CapabilityRegistry.register (noted TUYA "colour_data" COLOR true "HSV JSON string → HSV object") ;;
  CapabilityRegistry.register (noted TUYA "temp_value" COLOR_TEMPERATURE true "Device-specific range → Kelvin") ;;
  CapabilityRegistry.register (plain TUYA "temp_set" THERMOSTAT false) ;;
  CapabilityRegistry.register (noted TUYA "lock_motor_state" LOCK true "Map Tuya lock states") ;;
  CapabilityRegistry.register (plain TUYA "position" SHADE false) ;;
  CapabilityRegistry.register (plain TUYA "fan_speed" FAN false) ;;
  CapabilityRegistry.register (plain TUYA "switch_1" VALVE false) ;;
  CapabilityRegistry.register (plain TUYA "alarm_switch" ALARM false) ;;
  CapabilityRegistry.register (noted TUYA "temp_current" TEMPERATURE_SENSOR true "C/F conversion may be needed") ;;
  CapabilityRegistry.register (plain TUYA "humidity_value" HUMIDITY_SENSOR false) ;;
  CapabilityRegistry.register (noted TUYA "pir" MOTION_SENSOR true "Map pir/none to active/inactive") ;;
  CapabilityRegistry.register (noted TUYA "doorcontact_state" CONTACT_SENSOR true "Map boolean to open/closed") ;;
  CapabilityRegistry.register (plain TUYA "battery_percentage" BATTERY false) ;;
  CapabilityRegistry.register (plain TUYA "pm25_value" AIR_QUALITY_SENSOR false) ;;
  CapabilityRegistry.register (noted TUYA "watersensor_state" WATER_LEAK_SENSOR true "Map Tuya states to dry/wet") ;;
  CapabilityRegistry.register (noted TUYA "smoke_sensor_status" SMOKE_DETECTOR true "Map Tuya states") ;;
  CapabilityRegistry.register (plain TUYA "cur_power" ENERGY_METER false) ;;
  CapabilityRegistry.register (plain TUYA "volume" SPEAKER false) ;;
  CapabilityRegistry.register (noted TUYA "work_state" MEDIA_PLAYER true "Map work_state enum") ;;
  CapabilityRegistry.register (noted TUYA "basic_device_status" CAMERA true "Complex mapping") ;;
  CapabilityRegistry.register (noted LUTRON "OUTPUT" SWITCH true "Binary 0% or 100% only") ;;
  CapabilityRegistry.register (noted LUTRON "OUTPUT" DIMMER true "Round 0.00-100.00 to 0-100") ;;
  CapabilityRegistry.register (plain LUTRON "POSITION" SHADE false) ;;
  CapabilityRegistry.register (noted LUTRON "TILT" SHADE false "Shade tilt control") ;;
  CapabilityRegistry.register (noted LUTRON "OCCUPANCY" OCCUPANCY_SENSOR true "Map occupied/unoccupied") ;;
  CapabilityRegistry.register (noted LUTRON "FAN_SPEED" FAN false "RadioRA3 only").

(** ** A host for running examples

    A small instance of [Host] under which the registries can be evaluated
    on concrete inputs.  It implements the runtime on a fragment only: the
    numbers that are non-negative integers below 2^53, written in decimal,
    and the JSON texts that are flat objects of such numbers, written
    without white space.  Outside the fragment it answers as the runtime
    does for an input that denotes nothing (NaN, a [SyntaxError]).  The
    properties below are stated for every host; this one only serves to
    evaluate them on examples. *)

Module SampleHost.

(** The integer that [x] is, when [x] is a non-negative integer. *)
Definition integer_of (x : float) : option Z :=
  match Prim2SF x with
  | S754_zero _ => Some 0%Z
  | S754_finite false m e =>
      if (0 <=? e)%Z then Some (Zpos m * 2 ^ e)%Z
      else
        let d := (2 ^ (- e))%Z in
        if (Zpos m mod d =? 0)%Z then Some (Zpos m / d)%Z else None
  | _ => None
  end.

Definition decimal (z : Z) : string :=
  DecimalString.NilZero.string_of_uint (N.to_uint (Z.to_N z)).

(** The value of a non-empty string of decimal digits without a
    superfluous leading zero. *)
Definition of_decimal (s : string) : option Z :=
  match DecimalString.NilZero.uint_of_string s with
  | Some d =>
      let z := Z.of_uint d in
      if String.eqb (decimal z) s && (z <? 2 ^ 53)%Z then Some z else None
  | None => None
  end.

Fixpoint all_zeros (s : string) : bool :=
  match s with
  | EmptyString => true
  | String a rest => Ascii.eqb a "0"%char && all_zeros rest
  end.

(** The part of [s] before the first [c], and the part after it. *)
Fixpoint cut (c : ascii) (s : string) : option (string * string) :=
  match s with
  | EmptyString => None
  | String a rest =>
      if Ascii.eqb a c then Some (EmptyString, rest)
      else match cut c rest with
           | Some (before, after) => Some (String a before, after)
           | None => None
           end
  end.

(** Decimal digits, with or without a fraction of zeros. *)
Definition string_to_number (s : string) : float :=
  let whole :=
    match cut "." s with
    | Some (whole, String a fraction) =>
        if all_zeros (String a fraction) then of_decimal whole else None
    | Some (_, EmptyString) => None
    | None => of_decimal s
    end in
  match whole with
  | Some z => of_Z z
  | None => PrimFloat.nan
  end.

Definition object_to_number (_ : JsValue) : Completion float := Normal PrimFloat.nan.

Definition to_fixed (x : float) (digits : Z) : string :=
  match integer_of x with
  | Some z =>
      if (digits <=? 0)%Z then decimal z
      else decimal z ++ "." ++ string_of_list_ascii (repeat "0"%char (Z.to_nat digits))
  | None => "NaN"
  end.

Definition quote_char : ascii := Ascii.ascii_of_nat 34.
Definition backslash_char : ascii := Ascii.ascii_of_nat 92.

Fixpoint plain_chars (s : string) : bool :=
  match s with
  | EmptyString => true
  | String a rest =>
      negb (Ascii.eqb a backslash_char) && (32 <=? nat_of_ascii a)%nat
      && (nat_of_ascii a <? 127)%nat && plain_chars rest
  end.

(** One member [ "key":digits ]. *)
Definition parse_member (s : string) : option (string * JsValue) :=
  match s with
  | String q rest =>
      if Ascii.eqb q quote_char then
        match cut quote_char rest with
        | Some (key, String ":" digits) =>
            match of_decimal digits with
            | Some z => if plain_chars key then Some (key, JNum (of_Z z)) else None
            | None => None
            end
        | _ => None
        end
      else None
  | EmptyString => None
  end.

(** The members of [s], which are separated by commas; [fuel] bounds their
    number. *)
Fixpoint parse_members (fuel : nat) (s : string) : option (list (string * JsValue)) :=
  match fuel with
  | O => None
  | S fuel' =>
      match cut "," s with
      | None =>
          match parse_member s with
          | Some m => Some [m]
          | None => None
          end
      | Some (first, rest) =>
          match parse_member first, parse_members fuel' rest with
          | Some m, Some ms => Some (m :: ms)
          | _, _ => None
          end
      end
  end.

(** A later member replaces an earlier one of the same key. *)
Fixpoint define_fields (ms acc : list (string * JsValue)) : list (string * JsValue) :=
  match ms with
  | [] => acc
  | (k, v) :: rest => define_fields rest (JsMap.set k v acc)
  end.

Definition last_char (s : string) : option ascii :=
  match rev (list_ascii_of_string s) with
  | a :: _ => Some a
  | [] => None
  end.

Definition json_parse (text : JsValue) : Completion JsValue :=
  match text with
  | JStr (String "{" body) =>
      match last_char body with
      | Some "}"%char =>
          let inner := String.substring 0 (String.length body - 1) body in
          if String.eqb inner "" then Normal (JObj [])
          else match parse_members (S (String.length inner)) inner with
               | Some ms => Normal (JObj (define_fields ms []))
               | None => Throw SyntaxError
               end
      | _ => Throw SyntaxError
      end
  | _ => Throw SyntaxError
  end.

Definition print_member (m : string * JsValue) : string :=
  String quote_char (fst m) ++ String quote_char ":" ++
  match snd m with
  | JNum x => match integer_of x with Some z => decimal z | None => "null" end
  | _ => "null"
  end.

Definition json_stringify (value : JsValue) : JsValue :=
  match value with
  | JObj fields => JStr ("{" ++ String.concat "," (List.map print_member fields) ++ "}")
  | _ => JUndefined
  end.

Definition host : Host :=
  Build_Host string_to_number object_to_number to_fixed json_parse json_stringify.

End SampleHost.

(** ** Initialization and the standard world *)

(** The two calls at the end of the module, run when it is loaded. *)
Definition initialize (host : Host) : Js unit :=
  initializeCapabilityMappings ;; initializeValueConversions host.

(** [clear()] on both registries. *)
Definition clear_both : Js unit :=
  CapabilityRegistry.clear ;; ValueConversionRegistry.clear.

(** The world after the standard initialization of cleared registries. *)
Definition standard_world (host : Host) (w : World) : World :=
  exec (initialize host) (exec clear_both w).

(** A sequence of [CapabilityRegistry.register] calls. *)
Fixpoint registerAll (ms : list PlatformCapabilityMapping) : Js unit :=
  match ms with
  | [] => ret tt
  | m :: rest => CapabilityRegistry.register m ;; registerAll rest
  end.

(** A sequence of [ValueConversionRegistry.register] calls. *)
Fixpoint registerConversions (cs : list ValueConversionMapping) : Js unit :=
  match cs with
  | [] => ret tt
  | c :: rest => ValueConversionRegistry.register c ;; registerConversions rest
  end.

(** The most recent element of a registration sequence that satisfies [f]. *)
Definition last_registered {A} (f : A -> bool) (ms : list A) : option A :=
  List.find f (List.rev ms).

(** The mappings registered under the forward key of [(p, name)]. *)
Definition forward_match (p : Platform) (name : string) (m : PlatformCapabilityMapping) : bool :=
  Platform_eqb (platform m) p && String.eqb (platformCapability m) name.

(** The mappings registered under the reverse key of [(p, u)]. *)
Definition reverse_match (p : Platform) (u : DeviceCapability) (m : PlatformCapabilityMapping) : bool :=
  Platform_eqb (platform m) p && DeviceCapability_eqb (unifiedCapability m) u.

(** The conversions registered under the key of [(p, c, a)]. *)
Definition conversion_match (p : Platform) (c : DeviceCapability) (a : string)
           (v : ValueConversionMapping) : bool :=
  Platform_eqb (vc_platform v) p && DeviceCapability_eqb (vc_capability v) c
  && String.eqb (vc_attribute v) a.

(** The forward key of a mapping, and its reverse key. *)
Definition forward_key (m : PlatformCapabilityMapping) : string :=
  CapabilityRegistry.makeKey (platform m) (platformCapability m).

Definition reverse_key (m : PlatformCapabilityMapping) : string :=
  CapabilityRegistry.makeKey (platform m) (DeviceCapability_value (unifiedCapability m)).

Definition conversion_key (v : ValueConversionMapping) : string :=
  ValueConversionRegistry.makeKey (vc_platform v) (vc_capability v) (vc_attribute v).

(** The forward entries of platform [p], in insertion order. *)
Definition forward_entries (p : Platform) (w : World) : list PlatformCapabilityMapping :=
  List.filter (fun m => Platform_eqb (platform m) p) (List.map snd (mappings w)).

(** Every entry of the forward map sits under the forward key of its own
    mapping, and no key occurs twice. *)
Definition well_keyed (w : World) : Prop :=
  NoDup (JsMap.keys (mappings w))
  /\ Forall (fun e => fst e = forward_key (snd e)) (mappings w).

(** ** The functions of [unified-device.ts] *)

(** [Object.values(Platform)] and [Object.values(DeviceCapability)], in
    declaration order. *)
Definition Platform_members : list Platform := [SMARTTHINGS; TUYA; LUTRON].

Definition Object_values_Platform : list string := List.map Platform_value Platform_members.

Definition Object_values_DeviceCapability : list string :=
  List.map DeviceCapability_value all_capabilities.

(** [array.includes(x)] *)
Definition Array_includes {A} (eqb : A -> A -> bool) (array : list A) (x : A) : bool :=
  List.existsb (eqb x) array.

(** [s.includes(sub)] *)
Fixpoint String_includes (s sub : string) : bool :=
  String.prefix sub s
  || match s with
     | EmptyString => false
     | String _ rest => String_includes rest sub
     end.

(** [s.split(sep)] for a separator of one character: the pieces between
    the separators, of which there is always at least one. *)
Fixpoint String_split (sep : ascii) (s : string) : list string :=
  match s with
  | EmptyString => [EmptyString]
  | String c rest =>
      if Ascii.eqb c sep then EmptyString :: String_split sep rest
      else match String_split sep rest with
           | piece :: pieces => String c piece :: pieces
           | [] => [String c EmptyString]
           end
  end.

(** [array.join(sep)] *)
Definition Array_join (sep : string) (array : list string) : string :=
  String.concat sep array.

(** The member of [Platform] whose value is [s]: what the membership test
    [Object.values(Platform).includes(s)] decides, and what the cast
    [s as Platform] then denotes. *)
Definition Platform_of_value (s : string) : option Platform :=
  List.find (fun p => String.eqb (Platform_value p) s) Platform_members.

(** A call that returns, or throws [new Error(message)]. *)
Inductive Outcome (A : Type) : Type :=
| Returns (a : A)
| ThrowsError (message : string).

Arguments Returns {A} a.
Arguments ThrowsError {A} message.

Definition createUniversalDeviceId (platform : Platform) (platformDeviceId : string) : string :=
  Platform_value platform ++ ":" ++ platformDeviceId.

Definition isUniversalDeviceId (id : string) : bool :=
  if negb (String_includes id ":") then false
  else
    match String_split ":" id with
    | platformStr :: _ => Array_includes String.eqb Object_values_Platform platformStr
    | [] => false
    end.

Record ParsedDeviceId : Type := {
  parsed_platform : Platform;
  parsed_platformDeviceId : string
}.

Definition parseUniversalDeviceId (universalId : string) : Outcome ParsedDeviceId :=
  if negb (isUniversalDeviceId universalId)
  then ThrowsError ("Invalid universal device ID format: " ++ universalId)
  else
    match String_split ":" universalId with
    | platformStr :: rest =>
        match Platform_of_value platformStr with
        | None => ThrowsError ("Unknown platform in device ID: " ++ platformStr)
        | Some platform =>
            Returns {| parsed_platform := platform;
                       parsed_platformDeviceId := Array_join ":" rest |}
        end
    | [] => ThrowsError "Unknown platform in device ID: undefined"
    end.

Definition isPlatform (value : JsValue) : bool :=
  match value with
  | JStr s => Array_includes String.eqb Object_values_Platform s
  | _ => false
  end.

Definition isDeviceCapability (value : JsValue) : bool :=
  match value with
  | JStr s => Array_includes String.eqb Object_values_DeviceCapability s
  | _ => false
  end.

Record CapabilityGroup : Type := {
  group_id : string;
  group_name : string;
  group_capabilities : list DeviceCapability;
  group_componentId : option string;
  group_description : option string
}.

(** [lastSeen] is the time value of the [Date]. *)
Record UnifiedDevice : Type := {
  device_id : string;
  device_platform : Platform;
  device_platformDeviceId : string;
  device_name : string;
  device_label : option string;
  device_manufacturer : option string;
  device_model : option string;
  device_firmwareVersion : option string;
  device_room : option string;
  device_location : option string;
  device_capabilities : list DeviceCapability;
  device_capabilityGroups : option (list CapabilityGroup);
  device_online : bool;
  device_lastSeen : option float;
  device_platformSpecific : option (list (string * JsValue))
}.

Definition hasCapability (device : UnifiedDevice) (capability : DeviceCapability) : bool :=
  Array_includes DeviceCapability_eqb (device_capabilities device) capability.

Definition getActiveCapabilities (device : UnifiedDevice) : list DeviceCapability :=
  device_capabilities device.

Definition hasAllCapabilities (device : UnifiedDevice) (capabilities : list DeviceCapability)
  : bool :=
  List.forallb
    (fun cap => Array_includes DeviceCapability_eqb (device_capabilities device) cap)
    capabilities.

Definition hasAnyCapability (device : UnifiedDevice) (capabilities : list DeviceCapability)
  : bool :=
  List.existsb
    (fun cap => Array_includes DeviceCapability_eqb (device_capabilities device) cap)
    capabilities.

Definition getCapabilityGroups (device : UnifiedDevice) : list CapabilityGroup :=
  match device_capabilityGroups device with
  | Some groups => groups
  | None => []
  end.

Definition findCapabilityGroup (device : UnifiedDevice) (groupId : string)
  : option CapabilityGroup :=
  match device_capabilityGroups device with
  | Some groups => List.find (fun group => String.eqb (group_id group) groupId) groups
  | None => None
  end.

Definition getGroupCapabilities (device : UnifiedDevice) (groupId : string)
  : list DeviceCapability :=
  let group := findCapabilityGroup device groupId in
  match group with
  | Some group => group_capabilities group
  | None => []
  end.

Definition isSensorDevice (device : UnifiedDevice) : bool :=
  let sensorCapabilities :=
    [ TEMPERATURE_SENSOR; HUMIDITY_SENSOR; MOTION_SENSOR; CONTACT_SENSOR;
      OCCUPANCY_SENSOR; ILLUMINANCE_SENSOR; AIR_QUALITY_SENSOR; WATER_LEAK_SENSOR;
      SMOKE_DETECTOR; PRESSURE_SENSOR; CO_DETECTOR; SOUND_SENSOR ] in
  hasAnyCapability device sensorCapabilities.

Definition isControllerDevice (device : UnifiedDevice) : bool :=
  let controlCapabilities :=
    [ SWITCH; DIMMER; COLOR; COLOR_TEMPERATURE; THERMOSTAT; LOCK; SHADE; FAN;
      VALVE; ALARM; DOOR_CONTROL ] in
  hasAnyCapability device controlCapabilities.

(** The capabilities that make a device neither a sensor nor a controller,
    and the two lists of [isSensorDevice] and [isControllerDevice]. *)
Definition unclassified_capabilities : list DeviceCapability :=
  [BATTERY; BUTTON; ENERGY_METER; SPEAKER; MEDIA_PLAYER; CAMERA; ROBOT_VACUUM; IR_BLASTER].

Definition sensor_list : list DeviceCapability :=
  [ TEMPERATURE_SENSOR; HUMIDITY_SENSOR; MOTION_SENSOR; CONTACT_SENSOR;
    OCCUPANCY_SENSOR; ILLUMINANCE_SENSOR; AIR_QUALITY_SENSOR; WATER_LEAK_SENSOR;
    SMOKE_DETECTOR; PRESSURE_SENSOR; CO_DETECTOR; SOUND_SENSOR ].

Definition control_list : list DeviceCapability :=
  [ SWITCH; DIMMER; COLOR; COLOR_TEMPERATURE; THERMOSTAT; LOCK; SHADE; FAN;
    VALVE; ALARM; DOOR_CONTROL ].

(** ** Invariants of the capability registry *)

(** Every forward entry has its reverse entry, and every reverse entry
    names a platform capability that has a forward entry. *)
Definition maps_linked (w : World) : Prop :=
  (forall m, In m (List.map snd (mappings w)) ->
             JsMap.has (reverse_key m) (reverseMappings w) = true)
  /\ (forall k name, In (k, name) (reverseMappings w) ->
        exists p u, k = CapabilityRegistry.makeKey p (DeviceCapability_value u)
                    /\ JsMap.has (CapabilityRegistry.makeKey p name) (mappings w) = true).


(** * Properties *)

Unset Implicit Arguments.

(** ** [Math.round] *)

(** A tie goes towards +infinity, on both sides of zero; the sign of a
    zero result is that of the argument; the largest number below one half
    is not carried to 1 by an intermediate sum. *)
Example Math_round_ties :
  Math_round 2.5 = 3%float /\ Math_round (-2.5) = (-2)%float
  /\ Math_round 127.5 = 128%float /\ Math_round 0.5 = 1%float.
Proof. repeat split; reflexivity. Qed.

Example Math_round_zeros :
  Math_round (-0.3) = PrimFloat.neg_zero /\ Math_round (-0.5) = PrimFloat.neg_zero
  /\ Math_round 0.3 = PrimFloat.zero
  /\ Math_round 0x1.fffffffffffffp-2 = PrimFloat.zero.
Proof. repeat split; reflexivity. Qed.

Example Math_round_not_finite :
  Math_round PrimFloat.nan = PrimFloat.nan
  /\ Math_round PrimFloat.infinity = PrimFloat.infinity
  /\ Math_round PrimFloat.neg_infinity = PrimFloat.neg_infinity.
Proof. repeat split; reflexivity. Qed.

(** The products and quotients of the converters are those of binary64:
    [50 * 2.55] is just below 127.5. *)
Example Math_round_binary64 :
  Math_round (50 * 2.55) = 127%float /\ Math_round (100 / 3.6) = 28%float
  /\ Math_round (28 * 3.6) = 101%float /\ Math_round (255 / 2.55) = 100%float.
Proof. repeat split; reflexivity. Qed.

(** ** Keys *)

Lemma Platform_eqb_eq (p q : Platform) : Platform_eqb p q = true <-> p = q.
Proof. destruct p, q; simpl; split; intro H; try reflexivity; discriminate H. Qed.

Lemma Platform_eqb_refl (p : Platform) : Platform_eqb p p = true.
Proof. now destruct p. Qed.

Lemma DeviceCapability_eqb_eq (c d : DeviceCapability) :
  DeviceCapability_eqb c d = true <-> c = d.
Proof.
  unfold DeviceCapability_eqb.
  destruct (DeviceCapability_eq_dec c d); split; intro H; try assumption;
    try reflexivity; try discriminate H; contradiction.
Qed.

Lemma DeviceCapability_value_inj (c d : DeviceCapability) :
  DeviceCapability_value c = DeviceCapability_value d -> c = d.
Proof. destruct c, d; simpl; intro H; try reflexivity; discriminate H. Qed.

Lemma makeKey_inj (p q : Platform) (a b : string) :
  CapabilityRegistry.makeKey p a = CapabilityRegistry.makeKey q b -> p = q /\ a = b.
Proof.
  unfold CapabilityRegistry.makeKey.
  destruct p, q; simpl; intro H; try discriminate H; inversion H; auto.
Qed.

Lemma conversion_makeKey_inj (p q : Platform) (c d : DeviceCapability) (a b : string) :
  ValueConversionRegistry.makeKey p c a = ValueConversionRegistry.makeKey q d b ->
  p = q /\ c = d /\ a = b.
Proof.
  unfold ValueConversionRegistry.makeKey.
  intro H.
  assert (Hp : p = q /\
               (DeviceCapability_value c ++ ":" ++ a = DeviceCapability_value d ++ ":" ++ b)%string).
  { destruct p, q; simpl in H; try discriminate H; inversion H; auto. }
  destruct Hp as [-> Hc]. clear H.
  destruct c, d; simpl in Hc; try discriminate Hc; inversion Hc; auto.
Qed.

Lemma forward_key_eqb (p : Platform) (name : string) (m : PlatformCapabilityMapping) :
  String.eqb (forward_key m) (CapabilityRegistry.makeKey p name) = forward_match p name m.
Proof.
  unfold forward_key, forward_match.
  destruct (String.eqb_spec (CapabilityRegistry.makeKey (platform m) (platformCapability m))
                            (CapabilityRegistry.makeKey p name)) as [E | N].
  - apply makeKey_inj in E. destruct E as [-> ->].
    now rewrite Platform_eqb_refl, String.eqb_refl.
  - symmetry. apply andb_false_iff.
    destruct (Platform_eqb (platform m) p) eqn:Ep; [right | now left].
    apply Platform_eqb_eq in Ep.
    destruct (String.eqb_spec (platformCapability m) name) as [En | ]; [ | reflexivity].
    exfalso. apply N. now rewrite Ep, En.
Qed.

Lemma reverse_key_eqb (p : Platform) (u : DeviceCapability) (m : PlatformCapabilityMapping) :
  String.eqb (reverse_key m) (CapabilityRegistry.makeKey p (DeviceCapability_value u))
  = reverse_match p u m.
Proof.
  unfold reverse_key, reverse_match.
  destruct (String.eqb_spec
              (CapabilityRegistry.makeKey (platform m)
                 (DeviceCapability_value (unifiedCapability m)))
              (CapabilityRegistry.makeKey p (DeviceCapability_value u))) as [E | N].
  - apply makeKey_inj in E. destruct E as [-> E].
    apply DeviceCapability_value_inj in E. rewrite E, Platform_eqb_refl.
    symmetry. now apply DeviceCapability_eqb_eq.
  - symmetry. apply andb_false_iff.
    destruct (Platform_eqb (platform m) p) eqn:Ep; [right | now left].
    apply Platform_eqb_eq in Ep.
    destruct (DeviceCapability_eqb (unifiedCapability m) u) eqn:Eu; [ | reflexivity].
    apply DeviceCapability_eqb_eq in Eu.
    exfalso. apply N. now rewrite Ep, Eu.
Qed.

Lemma conversion_key_eqb (p : Platform) (c : DeviceCapability) (a : string)
      (v : ValueConversionMapping) :
  String.eqb (conversion_key v) (ValueConversionRegistry.makeKey p c a)
  = conversion_match p c a v.
Proof.
  unfold conversion_key, conversion_match.
  destruct (String.eqb_spec
              (ValueConversionRegistry.makeKey (vc_platform v) (vc_capability v) (vc_attribute v))
              (ValueConversionRegistry.makeKey p c a)) as [E | N].
  - apply conversion_makeKey_inj in E. destruct E as (-> & -> & ->).
    rewrite Platform_eqb_refl, String.eqb_refl.
    assert (DeviceCapability_eqb c c = true) as -> by now apply DeviceCapability_eqb_eq.
    reflexivity.
  - symmetry.
    destruct (Platform_eqb (vc_platform v) p) eqn:Ep; [ | reflexivity].
    destruct (DeviceCapability_eqb (vc_capability v) c) eqn:Ec; [ | reflexivity].
    destruct (String.eqb_spec (vc_attribute v) a) as [Ea | ]; [ | reflexivity].
    apply Platform_eqb_eq in Ep. apply DeviceCapability_eqb_eq in Ec.
    exfalso. apply N. now rewrite Ep, Ec, Ea.
Qed.

(** The forward key of a mapping starts with [`${p}:`] exactly when the
    mapping is of platform [p]. *)
Lemma startsWith_forward_key (p : Platform) (m : PlatformCapabilityMapping) :
  startsWith (forward_key m) (Platform_value p ++ ":") = Platform_eqb (platform m) p.
Proof.
  unfold startsWith, forward_key, CapabilityRegistry.makeKey.
  destruct (platform m), p; simpl; try reflexivity;
    now destruct (platformCapability m).
Qed.

(** ** Maps *)

Section MapFacts.

Context {V : Type}.
Implicit Types (m : JsMap.t V) (k : string) (v : V).

Lemma get_set k k' v m :
  JsMap.get k' (JsMap.set k v m) = if String.eqb k k' then Some v else JsMap.get k' m.
Proof.
  induction m as [ | [k0 v0] rest IH]; simpl.
  - reflexivity.
  - destruct (String.eqb_spec k0 k) as [-> | Hk0]; simpl.
    + now destruct (String.eqb k k').
    + destruct (String.eqb_spec k0 k') as [-> | Hk0'].
      * destruct (String.eqb_spec k k') as [-> | ]; [now elim Hk0 | reflexivity].
      * exact IH.
Qed.

Lemma has_get k m : JsMap.has k m = false <-> JsMap.get k m = None.
Proof. unfold JsMap.has. destruct (JsMap.get k m); split; congruence. Qed.

Lemma get_In_keys k m : JsMap.get k m <> None <-> In k (JsMap.keys m).
Proof.
  induction m as [ | [k0 v0] rest IH]; simpl.
  - split; [congruence | tauto].
  - destruct (String.eqb_spec k0 k) as [-> | Hk0].
    + split; [now left | congruence].
    + rewrite IH. split; [now right | ]. intros [E | H]; [now elim Hk0 | exact H].
Qed.

Lemma keys_set k v m :
  JsMap.keys (JsMap.set k v m)
  = if JsMap.has k m then JsMap.keys m else JsMap.keys m ++ [k].
Proof.
  unfold JsMap.has.
  induction m as [ | [k0 v0] rest IH]; simpl.
  - reflexivity.
  - destruct (String.eqb_spec k0 k) as [-> | Hk0]; simpl.
    + reflexivity.
    + rewrite IH. now destruct (JsMap.get k rest).
Qed.

Lemma NoDup_keys_set k v m : NoDup (JsMap.keys m) -> NoDup (JsMap.keys (JsMap.set k v m)).
Proof.
  intro H. rewrite keys_set.
  destruct (JsMap.has k m) eqn:E; [exact H | ].
  apply has_get in E.
  apply NoDup_app; [exact H | repeat constructor; simpl; tauto | ].
  intros x Hx [<- | []]. apply get_In_keys in Hx. contradiction.
Qed.

(** Every value of [set k v m] is [v] or a value of [m]. *)
Lemma In_set k v m e : In e (JsMap.set k v m) -> e = (k, v) \/ In e m.
Proof.
  induction m as [ | [k0 v0] rest IH]; simpl.
  - intros [<- | []]. now left.
  - destruct (String.eqb k0 k); simpl.
    + intros [<- | H]; [now left | right; now right].
    + intros [<- | H]; [right; now left | ].
      destruct (IH H) as [-> | H']; [now left | right; now right].
Qed.

End MapFacts.

(** ** Running the methods *)

Lemma exec_bind {A B} (c : Js A) (k : A -> Js B) (w : World) (a : A) :
  result c w = Normal a -> exec (bind c k) w = exec (k a) (exec c w).
Proof.
  unfold result, exec, bind. destruct (c w) as [r w']; simpl.
  now intros ->.
Qed.

Lemma result_bind {A B} (c : Js A) (k : A -> Js B) (w : World) (a : A) :
  result c w = Normal a -> result (bind c k) w = result (k a) (exec c w).
Proof.
  unfold result, exec, bind. destruct (c w) as [r w']; simpl.
  now intros ->.
Qed.

(** [register] branches on the deprecation fields only to write to the
    console; either way the maps get their two entries. *)
Ltac run_register m :=
  unfold CapabilityRegistry.register, exec, result, bind, update, console_warn, ret;
  simpl;
  now destruct (truthy_bool (deprecated m) && truthy_string (deprecationMessage m)).

Lemma register_result (m : PlatformCapabilityMapping) (w : World) :
  result (CapabilityRegistry.register m) w = Normal tt.
Proof. run_register m. Qed.

Lemma register_mappings (m : PlatformCapabilityMapping) (w : World) :
  mappings (exec (CapabilityRegistry.register m) w)
  = JsMap.set (forward_key m) m (mappings w).
Proof. run_register m. Qed.

Lemma register_reverseMappings (m : PlatformCapabilityMapping) (w : World) :
  reverseMappings (exec (CapabilityRegistry.register m) w)
  = JsMap.set (reverse_key m) (platformCapability m) (reverseMappings w).
Proof. run_register m. Qed.

Lemma register_conversions (m : PlatformCapabilityMapping) (w : World) :
  conversions (exec (CapabilityRegistry.register m) w) = conversions w.
Proof. run_register m. Qed.


Lemma registerAll_result (ms : list PlatformCapabilityMapping) (w : World) :
  result (registerAll ms) w = Normal tt.
Proof.
  revert w. induction ms as [ | m ms IH]; intro w; simpl.
  - reflexivity.
  - erewrite result_bind by apply register_result. apply IH.
Qed.

Lemma registerAll_cons (m : PlatformCapabilityMapping) ms (w : World) :
  exec (registerAll (m :: ms)) w = exec (registerAll ms) (exec (CapabilityRegistry.register m) w).
Proof. simpl. now erewrite exec_bind by apply register_result. Qed.

Lemma last_registered_cons {A} (f : A -> bool) (x : A) (l : list A) :
  last_registered f (x :: l)
  = match last_registered f l with
    | Some y => Some y
    | None => if f x then Some x else None
    end.
Proof.
  unfold last_registered. simpl.
  induction (rev l) as [ | y r IH]; simpl.
  - reflexivity.
  - destruct (f y); [reflexivity | exact IH].
Qed.

Lemma last_registered_In {A} (f : A -> bool) (l : list A) (x : A) :
  last_registered f l = Some x -> In x l /\ f x = true.
Proof.
  unfold last_registered. intro H. apply find_some in H.
  destruct H as [H1 H2]. split; [now apply in_rev | exact H2].
Qed.

Lemma last_registered_None {A} (f : A -> bool) (l : list A) :
  last_registered f l = None -> forall x, In x l -> f x = false.
Proof.
  unfold last_registered. intros H x Hx.
  apply (find_none _ _ H). now apply in_rev in Hx.
Qed.

(** The forward map after a sequence of registrations. *)
Lemma registerAll_forward (ms : list PlatformCapabilityMapping) (w : World)
      (p : Platform) (name : string) :
  JsMap.get (CapabilityRegistry.makeKey p name) (mappings (exec (registerAll ms) w))
  = match last_registered (forward_match p name) ms with
    | Some m => Some m
    | None => JsMap.get (CapabilityRegistry.makeKey p name) (mappings w)
    end.
Proof.
  revert w. induction ms as [ | m ms IH]; intro w.
  - reflexivity.
  - rewrite registerAll_cons, IH, last_registered_cons.
    destruct (last_registered (forward_match p name) ms); [reflexivity | ].
    rewrite register_mappings, get_set, forward_key_eqb.
    now destruct (forward_match p name m).
Qed.

(** The reverse map after a sequence of registrations. *)
Lemma registerAll_reverse (ms : list PlatformCapabilityMapping) (w : World)
      (p : Platform) (u : DeviceCapability) :
  JsMap.get (CapabilityRegistry.makeKey p (DeviceCapability_value u))
            (reverseMappings (exec (registerAll ms) w))
  = match last_registered (reverse_match p u) ms with
    | Some m => Some (platformCapability m)
    | None =>
        JsMap.get (CapabilityRegistry.makeKey p (DeviceCapability_value u)) (reverseMappings w)
    end.
Proof.
  revert w. induction ms as [ | m ms IH]; intro w.
  - reflexivity.
  - rewrite registerAll_cons, IH, last_registered_cons.
    destruct (last_registered (reverse_match p u) ms); [reflexivity | ].
    rewrite register_reverseMappings, get_set, reverse_key_eqb.
    now destruct (reverse_match p u m).
Qed.

Lemma clear_mappings (w : World) :
  mappings (exec CapabilityRegistry.clear w) = [] /\
  reverseMappings (exec CapabilityRegistry.clear w) = [] /\
  conversions (exec CapabilityRegistry.clear w) = conversions w.
Proof. repeat split. Qed.

(** ** Last write wins *)

(** C5. After any sequence of [register] calls, run from any registry state,
    [getUnifiedCapability(p, name)] is the unified capability of the most
    recent mapping of the sequence registered under [(p, name)], and
    [getPlatformCapability(p, u)] is the platform name of the most recent
    mapping of the sequence registered for [(p, u)]: the only alias when
    the sequence registers one alias for [(p, u)], the last one when it
    registers several.  A pair that the sequence does not register keeps
    what the state before held; on a cleared registry that is the null
    sentinel. *)
Theorem last_write_wins (ms : list PlatformCapabilityMapping) (w0 : World) :
  let w := exec (registerAll ms) w0 in
  (forall p name,
      CapabilityRegistry.getUnifiedCapability p name w
      = (Normal match last_registered (forward_match p name) ms with
                | Some m => Some (unifiedCapability m)
                | None => option_map unifiedCapability
                            (JsMap.get (CapabilityRegistry.makeKey p name) (mappings w0))
                end, w))
  /\ (forall p u,
      CapabilityRegistry.getPlatformCapability p u w
      = (Normal match last_registered (reverse_match p u) ms with
                | Some m => Some (platformCapability m)
                | None => JsMap.get (CapabilityRegistry.makeKey p (DeviceCapability_value u))
                            (reverseMappings w0)
                end, w))
  /\ (forall p u alias,
      (exists m, In m ms /\ reverse_match p u m = true) ->
      (forall m, In m ms -> reverse_match p u m = true -> platformCapability m = alias) ->
      CapabilityRegistry.getPlatformCapability p u w = (Normal (Some alias), w))
  /\ (forall p name u, CapabilityRegistry.getUnifiedCapability p name (exec CapabilityRegistry.clear w0)
                       = (Normal None, exec CapabilityRegistry.clear w0)
                    /\ CapabilityRegistry.getPlatformCapability p u (exec CapabilityRegistry.clear w0)
                       = (Normal None, exec CapabilityRegistry.clear w0)).
Proof.
  intro w.
  assert (Hrev : forall p u,
      CapabilityRegistry.getPlatformCapability p u w
      = (Normal match last_registered (reverse_match p u) ms with
                | Some m => Some (platformCapability m)
                | None => JsMap.get (CapabilityRegistry.makeKey p (DeviceCapability_value u))
                            (reverseMappings w0)
                end, w)).
  { intros p u. unfold CapabilityRegistry.getPlatformCapability, read.
    subst w. now rewrite registerAll_reverse. }
  repeat split.
  - intros p name.
    unfold CapabilityRegistry.getUnifiedCapability, bind, read, ret.
    subst w. rewrite registerAll_forward.
    now destruct (last_registered (forward_match p name) ms).
  - exact Hrev.
  - intros p u alias [m [Hin Hm]] Hall. rewrite Hrev.
    destruct (last_registered (reverse_match p u) ms) as [m' | ] eqn:E.
    + apply last_registered_In in E. destruct E as [E1 E2].
      now rewrite (Hall m' E1 E2).
    + rewrite (last_registered_None _ _ E m Hin) in Hm. discriminate Hm.
Qed.

(** ** The standard tables *)

(** What the capability maps hold after initialization depends neither on
    the host nor on what the registries held before they were cleared. *)
Lemma standard_mappings (host : Host) (w0 : World) :
  mappings (standard_world host w0)
  = mappings (exec initializeCapabilityMappings empty_world).
Proof. reflexivity. Qed.

Lemma standard_reverseMappings (host : Host) (w0 : World) :
  reverseMappings (standard_world host w0)
  = reverseMappings (exec initializeCapabilityMappings empty_world).
Proof. reflexivity. Qed.

Lemma standard_conversions (host : Host) (w0 : World) :
  conversions (standard_world host w0)
  = conversions (exec (initializeValueConversions host) empty_world).
Proof. reflexivity. Qed.

Lemma standard_count : JsMap.size (mappings (exec initializeCapabilityMappings empty_world)) = 59.
Proof. vm_compute. reflexivity. Qed.

(** ** The shape of the forward map *)

Lemma well_keyed_clear (w : World) : well_keyed (exec CapabilityRegistry.clear w).
Proof. split; simpl; constructor. Qed.

Lemma well_keyed_register (m : PlatformCapabilityMapping) (w : World) :
  well_keyed w -> well_keyed (exec (CapabilityRegistry.register m) w).
Proof.
  intros [Hnd Hk]. unfold well_keyed. rewrite register_mappings. split.
  - now apply NoDup_keys_set.
  - apply Forall_forall. intros e He.
    destruct (In_set _ _ _ _ He) as [-> | Hin]; [reflexivity | ].
    exact (proj1 (Forall_forall _ _) Hk e Hin).
Qed.

Lemma well_keyed_registerAll (ms : list PlatformCapabilityMapping) (w : World) :
  well_keyed w -> well_keyed (exec (registerAll ms) w).
Proof.
  revert w. induction ms as [ | m ms IH]; intros w H.
  - exact H.
  - rewrite registerAll_cons. now apply IH, well_keyed_register.
Qed.

Lemma NoDup_map_injective {A B} (f : A -> B) (l : list A) :
  NoDup (map f l) -> forall x y, In x l -> In y l -> f x = f y -> x = y.
Proof.
  induction l as [ | a l IH]; simpl; intros H x y Hx Hy E.
  - contradiction.
  - inversion H as [ | ? ? Hnot Hrest]; subst.
    destruct Hx as [<- | Hx], Hy as [<- | Hy].
    + reflexivity.
    + elim Hnot. rewrite E. now apply in_map.
    + elim Hnot. rewrite <- E. now apply in_map.
    + now apply IH.
Qed.

Lemma injective_NoDup_map {A B} (f : A -> B) (l : list A) :
  NoDup l -> (forall x y, In x l -> In y l -> f x = f y -> x = y) -> NoDup (map f l).
Proof.
  induction 1 as [ | a l Hnot Hnd IH]; simpl; intro Hinj.
  - constructor.
  - constructor.
    + intro Hin. apply in_map_iff in Hin. destruct Hin as [x [E Hx]].
      apply Hnot. rewrite <- (Hinj x a); auto.
    + apply IH. intros x y Hx Hy. apply Hinj; now right.
Qed.

Lemma well_keyed_keys (w : World) :
  well_keyed w -> JsMap.keys (mappings w) = map forward_key (map snd (mappings w)).
Proof.
  intros [_ Hk]. unfold JsMap.keys.
  induction (mappings w) as [ | e l IH]; simpl.
  - reflexivity.
  - inversion Hk; subst. f_equal; auto.
Qed.

(** The loop of [getSupportedCapabilities] and of [getPlatformCapabilities]:
    it pushes [g mapping] for the entries of the platform, in map order. *)
Lemma collect_loop {B} (g : PlatformCapabilityMapping -> B) (p : Platform)
      (entries : JsMap.t PlatformCapabilityMapping) (acc : list B) :
  Forall (fun e => fst e = forward_key (snd e)) entries ->
  fold_left
    (fun capabilities entry =>
       let '(key, mapping) := entry in
       if startsWith key (Platform_value p ++ ":")
       then capabilities ++ [g mapping]
       else capabilities)
    entries acc
  = acc ++ map g (filter (fun m => Platform_eqb (platform m) p) (map snd entries)).
Proof.
  intro Hk. revert acc.
  induction entries as [ | [key mapping] rest IH]; intro acc; simpl.
  - now rewrite app_nil_r.
  - inversion Hk as [ | ? ? Hkey Hrest]; subst. simpl in Hkey. subst key.
    rewrite (IH Hrest), startsWith_forward_key.
    destruct (Platform_eqb (platform mapping) p); simpl.
    + now rewrite <- app_assoc.
    + reflexivity.
Qed.

Lemma forward_entries_NoDup (p : Platform) (w : World) :
  well_keyed w -> NoDup (forward_entries p w).
Proof.
  intro H. apply NoDup_filter.
  apply (NoDup_map_inv forward_key).
  rewrite <- well_keyed_keys by exact H. exact (proj1 H).
Qed.

Lemma forward_entries_same_name (p : Platform) (w : World) :
  well_keyed w ->
  forall m1 m2, In m1 (forward_entries p w) -> In m2 (forward_entries p w) ->
                platformCapability m1 = platformCapability m2 -> m1 = m2.
Proof.
  intros H m1 m2 H1 H2 E.
  apply filter_In in H1, H2. destruct H1 as [H1 P1], H2 as [H2 P2].
  apply Platform_eqb_eq in P1, P2.
  apply (NoDup_map_injective forward_key (map snd (mappings w))); auto.
  - rewrite <- well_keyed_keys by exact H. exact (proj1 H).
  - unfold forward_key. now rewrite P1, P2, E.
Qed.

Lemma all_capabilities_complete (c : DeviceCapability) : In c all_capabilities.
Proof. destruct c; simpl; tauto. Qed.

(** C4 (as the code has it). For the registry left by any sequence of
    [register] calls on a cleared registry, and every platform,
    [getSupportedCapabilities(platform)] holds the unified capability of each
    forward entry of that platform, once per entry and in insertion order.
    Every element is one of the 31 members of [DeviceCapability].  The
    result is free of duplicates exactly when no two platform names of
    that platform are registered for the same unified capability: a
    capability with several aliases is listed once per alias. *)
Theorem supported_capabilities_per_entry
        (ms : list PlatformCapabilityMapping) (w0 : World) (p : Platform) :
  let w := exec (registerAll ms) (exec CapabilityRegistry.clear w0) in
  exists caps,
    CapabilityRegistry.getSupportedCapabilities p w = (Normal caps, w)
    /\ caps = map unifiedCapability (forward_entries p w)
    /\ List.length all_capabilities = 31
    /\ Forall (fun c => In c all_capabilities) caps
    /\ (NoDup caps <->
        forall m1 m2, In m1 (forward_entries p w) -> In m2 (forward_entries p w) ->
                      unifiedCapability m1 = unifiedCapability m2 ->
                      platformCapability m1 = platformCapability m2).
Proof.
  intro w.
  assert (Hw : well_keyed w) by apply well_keyed_registerAll, well_keyed_clear.
  exists (map unifiedCapability (forward_entries p w)).
  split; [ | split; [reflexivity | split; [reflexivity | split ] ] ].
  - unfold CapabilityRegistry.getSupportedCapabilities, bind, read, ret.
    now rewrite collect_loop by exact (proj2 Hw).
  - apply Forall_forall. intros c _. apply all_capabilities_complete.
  - split.
    + intros Hnd m1 m2 H1 H2 E.
      now rewrite (NoDup_map_injective unifiedCapability (forward_entries p w) Hnd) with (x := m1) (y := m2).
    + intro Hinj. apply injective_NoDup_map.
      * now apply forward_entries_NoDup.
      * intros m1 m2 H1 H2 E.
        apply forward_entries_same_name with (p := p) (w := w); auto.
Qed.

(** C4, refuted as stated. After the standard initialization the result for
    SmartThings lists DOOR_CONTROL twice (for [doorControl] and
    [garageDoorControl]) and BUTTON twice (for [button] and [momentary]). *)
Lemma supported_capabilities_repeat :
  let w := exec initializeCapabilityMappings (exec CapabilityRegistry.clear empty_world) in
  exists caps,
    CapabilityRegistry.getSupportedCapabilities SMARTTHINGS w = (Normal caps, w)
    /\ count_occ DeviceCapability_eq_dec caps DOOR_CONTROL = 2
    /\ count_occ DeviceCapability_eq_dec caps BUTTON = 2
    /\ ~ NoDup caps.
Proof.
  eexists. split; [vm_compute; reflexivity | ].
  split; [reflexivity | split; [reflexivity | ] ].
  intro H. pose proof (proj1 (NoDup_count_occ DeviceCapability_eq_dec _) H DOOR_CONTROL) as Hc.
  vm_compute in Hc. lia.
Qed.

(** ** Lutron: the two views of support *)

(** C6. After [initializeCapabilityMappings] on a cleared registry,
    [isPlatformSupported(LUTRON, SWITCH)] is true and
    [getPlatformCapability(LUTRON, SWITCH)] is ['OUTPUT'], although SWITCH
    is not in [getSupportedCapabilities(LUTRON)] and
    [getUnifiedCapability(LUTRON, 'OUTPUT')] is DIMMER: the forward entry
    of [(LUTRON, 'OUTPUT')] holds the later DIMMER mapping, and the reverse
    entry of [(LUTRON, SWITCH)] is still there. *)
Theorem lutron_switch_views_diverge (w0 : World) :
  let w := exec initializeCapabilityMappings (exec CapabilityRegistry.clear w0) in
  result (CapabilityRegistry.isPlatformSupported LUTRON SWITCH) w = Normal true
  /\ result (CapabilityRegistry.getPlatformCapability LUTRON SWITCH) w = Normal (Some "OUTPUT")
  /\ (exists caps,
        result (CapabilityRegistry.getSupportedCapabilities LUTRON) w = Normal caps
        /\ ~ In SWITCH caps)
  /\ result (CapabilityRegistry.getUnifiedCapability LUTRON "OUTPUT") w = Normal (Some DIMMER)
  /\ result (CapabilityRegistry.getMapping LUTRON "OUTPUT") w
     = Normal (Some (noted LUTRON "OUTPUT" DIMMER true "Round 0.00-100.00 to 0-100"))
  /\ JsMap.get (CapabilityRegistry.makeKey LUTRON (DeviceCapability_value SWITCH))
               (reverseMappings w) = Some "OUTPUT"
  /\ last_registered (forward_match LUTRON "OUTPUT")
       [ noted LUTRON "OUTPUT" SWITCH true "Binary 0% or 100% only";
         noted LUTRON "OUTPUT" DIMMER true "Round 0.00-100.00 to 0-100" ]
     = Some (noted LUTRON "OUTPUT" DIMMER true "Round 0.00-100.00 to 0-100").
Proof.
  intro w.
  split; [reflexivity | ].
  split; [reflexivity | ].
  split.
  { exists [DIMMER; SHADE; SHADE; OCCUPANCY_SENSOR; FAN]. split; [reflexivity | ].
    simpl. intuition discriminate. }
  repeat split; reflexivity.
Qed.

(** ** No operation of the capability registry throws *)

(** C8. In every registry state and for every argument, each operation of
    [CapabilityRegistry] completes normally.  A lookup under a key that
    the map does not hold gives the null sentinel ([getUnifiedCapability],
    [getPlatformCapability], [getMapping]), [false]
    ([isPlatformSupported]) or the empty array ([getSupportedCapabilities],
    [getPlatformCapabilities], when no key of the platform is held).  The
    lookups leave the state as it is. *)
Theorem capability_registry_never_throws (w : World) :
  (forall m, exists w', CapabilityRegistry.register m w = (Normal tt, w'))
  /\ (forall p name, exists r,
        CapabilityRegistry.getUnifiedCapability p name w = (Normal r, w)
        /\ (JsMap.has (CapabilityRegistry.makeKey p name) (mappings w) = false -> r = None))
  /\ (forall p u, exists r,
        CapabilityRegistry.getPlatformCapability p u w = (Normal r, w)
        /\ (JsMap.has (CapabilityRegistry.makeKey p (DeviceCapability_value u))
                      (reverseMappings w) = false -> r = None))
  /\ (forall p u, exists b,
        CapabilityRegistry.isPlatformSupported p u w = (Normal b, w)
        /\ (JsMap.has (CapabilityRegistry.makeKey p (DeviceCapability_value u))
                      (reverseMappings w) = false -> b = false))
  /\ (forall p, exists caps,
        CapabilityRegistry.getSupportedCapabilities p w = (Normal caps, w)
        /\ ((forall k, In k (JsMap.keys (mappings w)) ->
                       startsWith k (Platform_value p ++ ":") = false) -> caps = []))
  /\ (forall p, exists names,
        CapabilityRegistry.getPlatformCapabilities p w = (Normal names, w)
        /\ ((forall k, In k (JsMap.keys (mappings w)) ->
                       startsWith k (Platform_value p ++ ":") = false) -> names = []))
  /\ (forall p name, exists r,
        CapabilityRegistry.getMapping p name w = (Normal r, w)
        /\ (JsMap.has (CapabilityRegistry.makeKey p name) (mappings w) = false -> r = None))
  /\ (exists w', CapabilityRegistry.clear w = (Normal tt, w')
                 /\ mappings w' = [] /\ reverseMappings w' = [])
  /\ (exists n, CapabilityRegistry.getMappingCount w = (Normal n, w)).
Proof.
  assert (Hloop : forall (B : Type) (g : PlatformCapabilityMapping -> B) prefix
                         (entries : JsMap.t PlatformCapabilityMapping) (acc : list B),
             (forall k, In k (JsMap.keys entries) -> startsWith k prefix = false) ->
             fold_left
               (fun capabilities entry =>
                  let '(key, mapping) := entry in
                  if startsWith key prefix then capabilities ++ [g mapping]
                  else capabilities)
               entries acc = acc).
  { intros B g prefix entries.
    induction entries as [ | [key mapping] rest IH]; simpl; intros acc H.
    - reflexivity.
    - rewrite (H key) by now left. apply IH. intros k Hk. apply H. now right. }
  repeat apply conj.
  - intro m. exists (exec (CapabilityRegistry.register m) w).
    unfold exec. pose proof (register_result m w) as H. unfold result in H.
    destruct (CapabilityRegistry.register m w) as [r w']; simpl in *. now subst r.
  - intros p name.
    exists (option_map unifiedCapability
              (JsMap.get (CapabilityRegistry.makeKey p name) (mappings w))).
    split; [reflexivity | ].
    intro H. apply has_get in H. now rewrite H.
  - intros p u.
    exists (JsMap.get (CapabilityRegistry.makeKey p (DeviceCapability_value u))
                      (reverseMappings w)).
    split; [reflexivity | ].
    intro H. now apply has_get in H.
  - intros p u.
    exists (JsMap.has (CapabilityRegistry.makeKey p (DeviceCapability_value u))
                      (reverseMappings w)).
    split; [reflexivity | trivial].
  - intro p. eexists. split; [reflexivity | ]. apply Hloop.
  - intro p. eexists. split; [reflexivity | ]. apply Hloop.
  - intros p name.
    exists (JsMap.get (CapabilityRegistry.makeKey p name) (mappings w)).
    split; [reflexivity | ].
    intro H. now apply has_get in H.
  - eexists. repeat split.
  - eexists. reflexivity.
Qed.

(** ** Counts, and initialization again *)

(** C9. After the two initialization routines on cleared registries,
    [getMappingCount()] is more than 50 (it is 59) and
    [getConversionCount()] is at least 4 (it is 4); clearing both registries
    and running the two routines again gives the same two counts, and the
    same three maps. *)
Theorem initialization_counts (host : Host) (w0 : World) :
  let w1 := exec (initialize host) (exec clear_both w0) in
  let w2 := exec (initialize host) (exec clear_both w1) in
  exists n k,
    result CapabilityRegistry.getMappingCount w1 = Normal n
    /\ result ValueConversionRegistry.getConversionCount w1 = Normal k
    /\ n > 50 /\ k >= 4
    /\ n = 59 /\ k = 4
    /\ result CapabilityRegistry.getMappingCount w2 = Normal n
    /\ result ValueConversionRegistry.getConversionCount w2 = Normal k
    /\ mappings w2 = mappings w1
    /\ reverseMappings w2 = reverseMappings w1
    /\ conversions w2 = conversions w1.
Proof.
  intros w1 w2. exists 59, 4.
  assert (H1 : result CapabilityRegistry.getMappingCount w1 = Normal 59)
    by (vm_compute; reflexivity).
  assert (H2 : result ValueConversionRegistry.getConversionCount w1 = Normal 4)
    by reflexivity.
  repeat split; try assumption; try lia.
Qed.

(** ** The identity fallback *)

(** C1. When no conversion is registered under the key of
    [(platform, capability, attribute)], that is when [hasConversion] answers
    false, [toPlatform] and [fromPlatform] return the value they are given,
    whatever it is, and leave the registries as they are. *)
Theorem identity_fallback (w : World) (p : Platform) (c : DeviceCapability)
        (a : string) (x : JsValue) :
  result (ValueConversionRegistry.hasConversion p c a) w = Normal false ->
  ValueConversionRegistry.toPlatform p c a x w = (Normal x, w)
  /\ ValueConversionRegistry.fromPlatform p c a x w = (Normal x, w).
Proof.
  unfold ValueConversionRegistry.hasConversion, ValueConversionRegistry.toPlatform,
    ValueConversionRegistry.fromPlatform, result, read, bind, ret; simpl.
  intro H. injection H as H. apply has_get in H. now rewrite H.
Qed.

(** [hasConversion] after a sequence of registrations on a cleared registry:
    true exactly for the triples that the sequence registers. *)
Lemma hasConversion_history (cs : list ValueConversionMapping) (w0 : World)
      (p : Platform) (c : DeviceCapability) (a : string) :
  result (ValueConversionRegistry.hasConversion p c a)
         (exec (registerConversions cs) (exec ValueConversionRegistry.clear w0))
  = Normal (existsb (conversion_match p c a) cs).
Proof.
  unfold ValueConversionRegistry.hasConversion, result, read; simpl.
  f_equal. unfold JsMap.has.
  assert (G : forall w,
             JsMap.get (ValueConversionRegistry.makeKey p c a)
                       (conversions (exec (registerConversions cs) w))
             = match last_registered (conversion_match p c a) cs with
               | Some v => Some v
               | None => JsMap.get (ValueConversionRegistry.makeKey p c a) (conversions w)
               end).
  { induction cs as [ | v cs IH]; intro w.
    - reflexivity.
    - change (exec (registerConversions (v :: cs)) w)
        with (exec (registerConversions cs) (exec (ValueConversionRegistry.register v) w)).
      rewrite IH, last_registered_cons.
      destruct (last_registered (conversion_match p c a) cs); [reflexivity | ].
      change (conversions (exec (ValueConversionRegistry.register v) w))
        with (JsMap.set (conversion_key v) v (conversions w)).
      rewrite get_set, conversion_key_eqb.
      now destruct (conversion_match p c a v). }
  rewrite G. simpl.
  destruct (last_registered (conversion_match p c a) cs) as [v | ] eqn:E.
  - apply last_registered_In in E. symmetry. apply existsb_exists. now exists v.
  - symmetry. apply not_true_is_false. intro H. apply existsb_exists in H.
    destruct H as [v [Hin Hv]].
    rewrite (last_registered_None _ _ E v Hin) in Hv. discriminate Hv.
Qed.

(** ** Dispatch to a registered converter *)

(** With an entry under the key, [toPlatform] and [fromPlatform] complete as
    the entry's converter does, and leave the world as it is. *)
Lemma toPlatform_registered (w : World) (p : Platform) (c : DeviceCapability)
      (a : string) (conversion : ValueConversionMapping) (value : JsValue) :
  JsMap.get (ValueConversionRegistry.makeKey p c a) (conversions w) = Some conversion ->
  ValueConversionRegistry.toPlatform p c a value w = (vc_toPlatform conversion value, w).
Proof.
  intro Hget. unfold ValueConversionRegistry.toPlatform, bind, read, call.
  now rewrite Hget.
Qed.

Lemma fromPlatform_registered (w : World) (p : Platform) (c : DeviceCapability)
      (a : string) (conversion : ValueConversionMapping) (value : JsValue) :
  JsMap.get (ValueConversionRegistry.makeKey p c a) (conversions w) = Some conversion ->
  ValueConversionRegistry.fromPlatform p c a value w = (vc_fromPlatform conversion value, w).
Proof.
  intro Hget. unfold ValueConversionRegistry.fromPlatform, bind, read, call.
  now rewrite Hget.
Qed.

(** The entries that the standard conversions hold. *)
Lemma standard_tuya_level (host : Host) (w0 : World) :
  JsMap.get (ValueConversionRegistry.makeKey TUYA DIMMER "level")
            (conversions (standard_world host w0))
  = Some {| vc_platform := TUYA; vc_capability := DIMMER; vc_attribute := "level";
            vc_toPlatform := tuya_level_toPlatform host;
            vc_fromPlatform := tuya_level_fromPlatform host;
            vc_description := "Tuya brightness scale: 0-1000 ↔ 0-100" |}.
Proof. reflexivity. Qed.

Lemma standard_smartthings_hue (host : Host) (w0 : World) :
  JsMap.get (ValueConversionRegistry.makeKey SMARTTHINGS COLOR "hue")
            (conversions (standard_world host w0))
  = Some {| vc_platform := SMARTTHINGS; vc_capability := COLOR; vc_attribute := "hue";
            vc_toPlatform := smartthings_hue_toPlatform host;
            vc_fromPlatform := smartthings_hue_fromPlatform host;
            vc_description := "SmartThings hue: 0-100% ↔ 0-360 degrees" |}.
Proof. reflexivity. Qed.

Lemma standard_tuya_color (host : Host) (w0 : World) :
  JsMap.get (ValueConversionRegistry.makeKey TUYA COLOR "color")
            (conversions (standard_world host w0))
  = Some {| vc_platform := TUYA; vc_capability := COLOR; vc_attribute := "color";
            vc_toPlatform := tuya_color_toPlatform host;
            vc_fromPlatform := tuya_color_fromPlatform host;
            vc_description := "Tuya color: HSV JSON string ↔ HSV object" |}.
Proof. reflexivity. Qed.

(** ** The numeric converters *)

Section Numeric.

Variables (host : Host) (w0 : World).

Let w : World := standard_world host w0.

Lemma level_toPlatform (v : float) :
  ValueConversionRegistry.toPlatform TUYA DIMMER "level" (JNum v) w
  = (Normal (JNum (Math_round (v * 10))), w).
Proof. exact (toPlatform_registered w _ _ _ _ (JNum v) (standard_tuya_level host w0)). Qed.

Lemma level_fromPlatform (v : float) :
  ValueConversionRegistry.fromPlatform TUYA DIMMER "level" (JNum v) w
  = (Normal (JNum (Math_round (v / 10))), w).
Proof. exact (fromPlatform_registered w _ _ _ _ (JNum v) (standard_tuya_level host w0)). Qed.

Lemma hue_toPlatform (v : float) :
  ValueConversionRegistry.toPlatform SMARTTHINGS COLOR "hue" (JNum v) w
  = (Normal (JNum (Math_round (v / 3.6))), w).
Proof. exact (toPlatform_registered w _ _ _ _ (JNum v) (standard_smartthings_hue host w0)). Qed.

Lemma hue_fromPlatform (v : float) :
  ValueConversionRegistry.fromPlatform SMARTTHINGS COLOR "hue" (JNum v) w
  = (Normal (JNum (Math_round (v * 3.6))), w).
Proof. exact (fromPlatform_registered w _ _ _ _ (JNum v) (standard_smartthings_hue host w0)). Qed.

End Numeric.

Lemma enumerate_below (bound : nat) (P : Z -> Prop) :
  (forall k : nat, (k <= bound)%nat -> P (Z.of_nat k)) ->
  forall n : Z, (0 <= n <= Z.of_nat bound)%Z -> P n.
Proof.
  intros H n Hn. rewrite <- (Z2Nat.id n) by lia. apply H. lia.
Qed.

(** Scaling an integer of 0..100 by ten and back is exact. *)
Lemma level_round_trip (n : Z) :
  (0 <= n <= 100)%Z -> Math_round (Math_round (of_Z n * 10) / 10) = of_Z n.
Proof.
  revert n. apply (enumerate_below 100). intros k Hk.
  do 101 (destruct k as [ | k]; [vm_compute; reflexivity | ]).
  lia.
Qed.

(** Two numbers that [=?] tells apart, the second not being NaN, are
    different values. *)
Lemma JNum_neq (x y : float) :
  PrimFloat.eqb x y = false -> PrimFloat.eqb y y = true -> JNum x <> JNum y.
Proof.
  intros H Hy E.
  apply (f_equal (fun v => match v with JNum z => PrimFloat.eqb z y | _ => false end)) in E.
  rewrite H, Hy in E. discriminate E.
Qed.

(** C2. With the standard conversions, the Tuya dimmer [level] converter
    computes [Math.round(v * 10)] to the platform and [Math.round(v / 10)]
    from it, for every number [v]; 750 comes back as 75, 75 goes to 750,
    50 to 500 and 500 back to 50; and for every integer [v] of 0..100,
    [fromPlatform(toPlatform(v))] is [v]. *)
Theorem tuya_level_conversion (host : Host) (w0 : World) :
  let w := standard_world host w0 in
  let to_platform := ValueConversionRegistry.toPlatform TUYA DIMMER "level" in
  let from_platform := ValueConversionRegistry.fromPlatform TUYA DIMMER "level" in
  (forall v : float, to_platform (JNum v) w = (Normal (JNum (Math_round (v * 10))), w))
  /\ (forall v : float, from_platform (JNum v) w = (Normal (JNum (Math_round (v / 10))), w))
  /\ from_platform (JNum 750) w = (Normal (JNum 75), w)
  /\ to_platform (JNum 75) w = (Normal (JNum 750), w)
  /\ to_platform (JNum 50) w = (Normal (JNum 500), w)
  /\ from_platform (JNum 500) w = (Normal (JNum 50), w)
  /\ (forall n : Z, (0 <= n <= 100)%Z ->
        exists x, to_platform (JNum (of_Z n)) w = (Normal x, w)
                  /\ from_platform x w = (Normal (JNum (of_Z n)), w)).
Proof.
  intros w to_platform from_platform. subst w to_platform from_platform.
  repeat apply conj.
  - apply level_toPlatform.
  - apply level_fromPlatform.
  - rewrite level_fromPlatform. reflexivity.
  - rewrite level_toPlatform. reflexivity.
  - rewrite level_toPlatform. reflexivity.
  - rewrite level_fromPlatform. reflexivity.
  - intros n Hn. exists (JNum (Math_round (of_Z n * 10))).
    split; [apply level_toPlatform | ].
    rewrite level_fromPlatform. now rewrite level_round_trip.
Qed.

(** C3. With the standard conversions, the SmartThings COLOR [hue] converter
    computes [Math.round(v / 3.6)] to the platform (degrees to percent) and
    [Math.round(v * 3.6)] from it (percent to degrees), for every number
    [v]; 50 percent comes back as 180 degrees and 270 degrees go to 75
    percent. *)
Theorem smartthings_hue_conversion (host : Host) (w0 : World) :
  let w := standard_world host w0 in
  let to_platform := ValueConversionRegistry.toPlatform SMARTTHINGS COLOR "hue" in
  let from_platform := ValueConversionRegistry.fromPlatform SMARTTHINGS COLOR "hue" in
  (forall v : float, to_platform (JNum v) w = (Normal (JNum (Math_round (v / 3.6))), w))
  /\ (forall v : float, from_platform (JNum v) w = (Normal (JNum (Math_round (v * 3.6))), w))
  /\ from_platform (JNum 50) w = (Normal (JNum 180), w)
  /\ to_platform (JNum 270) w = (Normal (JNum 75), w).
Proof.
  intros w to_platform from_platform. subst w to_platform from_platform.
  repeat apply conj.
  - apply hue_toPlatform.
  - apply hue_fromPlatform.
  - rewrite hue_fromPlatform. reflexivity.
  - rewrite hue_toPlatform. reflexivity.
Qed.

(** A multiple of 18 degrees is a whole number of percent, five for each
    18 degrees, and comes back from it as it was. *)
Lemma even_degrees_round_trip (k : Z) :
  (0 <= k <= 20)%Z ->
  Math_round (of_Z (18 * k) / 3.6) = of_Z (5 * k)
  /\ Math_round (of_Z (5 * k) * 3.6) = of_Z (18 * k).
Proof.
  revert k. apply (enumerate_below 20). intros k Hk.
  do 21 (destruct k as [ | k]; [split; vm_compute; reflexivity | ]).
  lia.
Qed.

(** C7. The SmartThings hue conversion does not round-trip every integer
    degree of 0..360: 100 degrees go to 28 percent, which comes back as 101
    degrees.  For the degrees that divide evenly, the multiples of 18 (each
    a whole number of percent, 3.6 degrees apiece), the round trip is
    exact: such a value [v] goes to [v / 3.6] percent and comes back as
    [v]; so 270 degrees go to 75 percent, which comes back as 270
    degrees. *)
Theorem hue_round_trip_drifts (host : Host) (w0 : World) :
  let w := standard_world host w0 in
  let to_platform := ValueConversionRegistry.toPlatform SMARTTHINGS COLOR "hue" in
  let from_platform := ValueConversionRegistry.fromPlatform SMARTTHINGS COLOR "hue" in
  (exists n : Z, (0 <= n <= 360)%Z /\
     exists x y, to_platform (JNum (of_Z n)) w = (Normal x, w)
                 /\ from_platform x w = (Normal y, w)
                 /\ y <> JNum (of_Z n))
  /\ to_platform (JNum 100) w = (Normal (JNum 28), w)
  /\ from_platform (JNum 28) w = (Normal (JNum 101), w)
  /\ to_platform (JNum 270) w = (Normal (JNum 75), w)
  /\ from_platform (JNum 75) w = (Normal (JNum 270), w)
  /\ (forall n : Z, (0 <= n <= 360)%Z -> (n mod 18 = 0)%Z ->
        to_platform (JNum (of_Z n)) w = (Normal (JNum (of_Z (5 * (n / 18)))), w)
        /\ from_platform (JNum (of_Z (5 * (n / 18)))) w = (Normal (JNum (of_Z n)), w)).
Proof.
  intros w to_platform from_platform. subst w to_platform from_platform.
  assert (H100 : ValueConversionRegistry.toPlatform SMARTTHINGS COLOR "hue" (JNum 100)
                   (standard_world host w0)
                 = (Normal (JNum 28), standard_world host w0))
    by (rewrite hue_toPlatform; reflexivity).
  assert (H28 : ValueConversionRegistry.fromPlatform SMARTTHINGS COLOR "hue" (JNum 28)
                  (standard_world host w0)
                = (Normal (JNum 101), standard_world host w0))
    by (rewrite hue_fromPlatform; reflexivity).
  repeat apply conj; try assumption.
  - exists 100%Z. split; [lia | ].
    exists (JNum 28), (JNum 101). repeat apply conj; try assumption.
    apply JNum_neq; reflexivity.
  - rewrite hue_toPlatform. reflexivity.
  - rewrite hue_fromPlatform. reflexivity.
  - intros n Hn Hmod.
    assert (Hk : (0 <= n / 18 <= 20)%Z).
    { split; [apply Z.div_pos; lia | ]. apply Z.div_le_upper_bound; lia. }
    assert (En : (n = 18 * (n / 18))%Z).
    { pose proof (Z.div_mod n 18 ltac:(lia)) as Hd. lia. }
    destruct (even_degrees_round_trip (n / 18) Hk) as [Hto Hfrom].
    rewrite <- En in Hto, Hfrom.
    split.
    + rewrite hue_toPlatform. now rewrite Hto.
    + rewrite hue_fromPlatform. now rewrite Hfrom.
Qed.

(** ** Errors of a converter *)

(** C10. An error that a registered converter raises on its input is what
    [fromPlatform] and [toPlatform] complete with: the same error, and the
    registries as they were.  With the standard conversions,
    [fromPlatform(TUYA, COLOR, "color", s)] on a string that [JSON.parse]
    rejects raises the error of [JSON.parse], and
    [toPlatform(TUYA, COLOR, "color", undefined)] raises the [TypeError] of
    reading [value.h]. *)
Theorem converter_error_propagates (host : Host) (w0 : World) :
  (forall w p c a conversion value e,
      JsMap.get (ValueConversionRegistry.makeKey p c a) (conversions w) = Some conversion ->
      vc_fromPlatform conversion value = Throw e ->
      ValueConversionRegistry.fromPlatform p c a value w = (Throw e, w))
  /\ (forall w p c a conversion value e,
      JsMap.get (ValueConversionRegistry.makeKey p c a) (conversions w) = Some conversion ->
      vc_toPlatform conversion value = Throw e ->
      ValueConversionRegistry.toPlatform p c a value w = (Throw e, w))
  /\ (forall s e,
      JSON_parse host (JStr s) = Throw e ->
      ValueConversionRegistry.fromPlatform TUYA COLOR "color" (JStr s) (standard_world host w0)
      = (Throw e, standard_world host w0))
  /\ ValueConversionRegistry.toPlatform TUYA COLOR "color" JUndefined (standard_world host w0)
     = (Throw TypeError, standard_world host w0).
Proof.
  repeat apply conj.
  - intros w p c a conversion value e Hget Hthrow.
    now rewrite (fromPlatform_registered w p c a conversion value Hget), Hthrow.
  - intros w p c a conversion value e Hget Hthrow.
    now rewrite (toPlatform_registered w p c a conversion value Hget), Hthrow.
  - intros s e Hparse.
    rewrite (fromPlatform_registered _ _ _ _ _ (JStr s) (standard_tuya_color host w0)).
    simpl. unfold tuya_color_fromPlatform. now rewrite Hparse.
  - now rewrite (toPlatform_registered _ _ _ _ _ JUndefined (standard_tuya_color host w0)).
Qed.

(** ** The theorems at concrete inputs *)

(** SmartThings registers no conversion for the dimmer level: 50 passes
    through. *)
Lemma identity_fallback_smartthings_level :
  let w := standard_world SampleHost.host empty_world in
  result (ValueConversionRegistry.hasConversion SMARTTHINGS DIMMER "level") w = Normal false
  /\ ValueConversionRegistry.toPlatform SMARTTHINGS DIMMER "level" (JNum 50) w
     = (Normal (JNum 50), w)
  /\ ValueConversionRegistry.fromPlatform SMARTTHINGS DIMMER "level" (JNum 50) w
     = (Normal (JNum 50), w).
Proof.
  split; [reflexivity | ].
  apply (identity_fallback (standard_world SampleHost.host empty_world)
                           SMARTTHINGS DIMMER "level" (JNum 50)).
  reflexivity.
Defined.

(** Level 42 goes to 420 and comes back. *)
Lemma tuya_level_round_trip_42 :
  let w := standard_world SampleHost.host empty_world in
  (0 <= 42 <= 100)%Z
  /\ exists x,
       ValueConversionRegistry.toPlatform TUYA DIMMER "level" (JNum (of_Z 42)) w = (Normal x, w)
       /\ ValueConversionRegistry.fromPlatform TUYA DIMMER "level" x w
          = (Normal (JNum (of_Z 42)), w).
Proof.
  split; [lia | ].
  apply (proj2 (proj2 (proj2 (proj2 (proj2 (proj2
           (tuya_level_conversion SampleHost.host empty_world))))))).
  lia.
Defined.

(** The two SmartThings door names: the later one answers the reverse
    lookup, each answers its own forward lookup; [switch] is the only name
    registered for SWITCH. *)
Lemma last_write_wins_door_aliases :
  let door := plain SMARTTHINGS "doorControl" DOOR_CONTROL false in
  let garage := noted SMARTTHINGS "garageDoorControl" DOOR_CONTROL false "Alias for doorControl" in
  let switch := plain SMARTTHINGS "switch" SWITCH false in
  let w := exec (registerAll [switch; door; garage]) empty_world in
  CapabilityRegistry.getPlatformCapability SMARTTHINGS DOOR_CONTROL w
  = (Normal (Some "garageDoorControl"), w)
  /\ CapabilityRegistry.getUnifiedCapability SMARTTHINGS "doorControl" w
     = (Normal (Some DOOR_CONTROL), w)
  /\ CapabilityRegistry.getPlatformCapability SMARTTHINGS SWITCH w
     = (Normal (Some "switch"), w).
Proof.
  intros door garage switch w.
  destruct (last_write_wins [switch; door; garage] empty_world) as (Hfwd & Hrev & Hone & _).
  split; [exact (Hrev SMARTTHINGS DOOR_CONTROL) | ].
  split; [exact (Hfwd SMARTTHINGS "doorControl") | ].
  apply (Hone SMARTTHINGS SWITCH "switch").
  - exists switch. split; [now left | reflexivity].
  - intros m [<- | [<- | [<- | []]]] Hm; try reflexivity; discriminate Hm.
Defined.

(** The full circle: 360 degrees go to 100 percent and come back. *)
Lemma hue_round_trip_full_circle :
  (0 <= 360 <= 360)%Z /\ (360 mod 18 = 0)%Z
  /\ ValueConversionRegistry.toPlatform SMARTTHINGS COLOR "hue" (JNum (of_Z 360))
       (standard_world SampleHost.host empty_world)
     = (Normal (JNum (of_Z (5 * (360 / 18)))), standard_world SampleHost.host empty_world)
  /\ ValueConversionRegistry.fromPlatform SMARTTHINGS COLOR "hue"
       (JNum (of_Z (5 * (360 / 18)))) (standard_world SampleHost.host empty_world)
     = (Normal (JNum (of_Z 360)), standard_world SampleHost.host empty_world).
Proof.
  split; [lia | split; [reflexivity | ] ].
  apply (proj2 (proj2 (proj2 (proj2 (proj2
           (hue_round_trip_drifts SampleHost.host empty_world))))) 360%Z).
  - lia.
  - reflexivity.
Defined.

(** A text that is not JSON: the [SyntaxError] of the parser reaches the
    caller. *)
Lemma converter_error_propagates_not_json :
  let w := standard_world SampleHost.host empty_world in
  JSON_parse SampleHost.host (JStr "not json") = Throw SyntaxError
  /\ ValueConversionRegistry.fromPlatform TUYA COLOR "color" (JStr "not json") w
     = (Throw SyntaxError, w).
Proof.
  split; [reflexivity | ].
  apply (proj1 (proj2 (proj2 (converter_error_propagates SampleHost.host empty_world)))).
  reflexivity.
Defined.

(** ** The checks of the test-suite, evaluated *)

Section TestSuite.

Let w : World := standard_world SampleHost.host empty_world.

(** 'should have SmartThings hue conversion' *)
Example test_hue :
  result (ValueConversionRegistry.toPlatform SMARTTHINGS COLOR "hue" (JNum 180)) w
  = Normal (JNum 50)
  /\ result (ValueConversionRegistry.fromPlatform SMARTTHINGS COLOR "hue" (JNum 50)) w
     = Normal (JNum 180).
Proof. split; reflexivity. Qed.

(** 'should have Tuya color format conversion': the brightness 50 is sent as
    127, and read back as 50. *)
Example test_tuya_color :
  let hsvObject := JObj [("h", JNum 180); ("s", JNum 100); ("v", JNum 50)] in
  result (ValueConversionRegistry.toPlatform TUYA COLOR "color" hsvObject) w
  = Normal (SampleHost.json_stringify
              (JObj [("h", JNum 180); ("s", JNum 100); ("v", JNum 127)]))
  /\ result (jsonString <- ValueConversionRegistry.toPlatform TUYA COLOR "color" hsvObject ;;
             ValueConversionRegistry.fromPlatform TUYA COLOR "color" jsonString) w
     = Normal hsvObject.
Proof. split; vm_compute; reflexivity. Qed.

(** The Lutron level: 73.45 is read as 73, and 50 is sent as 50. *)
Example test_lutron_level :
  result (ValueConversionRegistry.fromPlatform LUTRON DIMMER "level" (JNum 73.45)) w
  = Normal (JNum 73)
  /\ result (ValueConversionRegistry.toPlatform LUTRON DIMMER "level" (JNum 50)) w
     = Normal (JNum 50).
Proof. split; vm_compute; reflexivity. Qed.

(** 'should handle complete workflow: Tuya dimmer with conversion' *)
Example test_tuya_workflow :
  result (CapabilityRegistry.getUnifiedCapability TUYA "bright_value") w = Normal (Some DIMMER)
  /\ result (ValueConversionRegistry.hasConversion TUYA DIMMER "level") w = Normal true
  /\ result (ValueConversionRegistry.fromPlatform TUYA DIMMER "level" (JNum 750)) w
     = Normal (JNum 75)
  /\ result (ValueConversionRegistry.toPlatform TUYA DIMMER "level" (JNum 75)) w
     = Normal (JNum 750).
Proof. repeat split; reflexivity. Qed.

(** 'should return null for unknown conversion', and Lutron has no colour. *)
Example test_lutron_color :
  result (ValueConversionRegistry.getConversion LUTRON COLOR "hue") w = Normal None
  /\ result (CapabilityRegistry.isPlatformSupported LUTRON COLOR) w = Normal false.
Proof. split; reflexivity. Qed.

End TestSuite.

(** * Further properties *)

(** ** Universal device identifiers *)

Lemma String_split_nonempty (sep : ascii) (s : string) : String_split sep s <> [].
Proof.
  destruct s as [ | c rest]; simpl; [discriminate | ].
  destruct (Ascii.eqb c sep); [discriminate | ].
  destruct (String_split sep rest); discriminate.
Qed.

(** Joining the pieces with the separator gives the string back. *)
Lemma join_split (sep : ascii) (s : string) :
  Array_join (String sep EmptyString) (String_split sep s) = s.
Proof.
  unfold Array_join.
  induction s as [ | c rest IH]; simpl.
  - reflexivity.
  - destruct (Ascii.eqb_spec c sep) as [-> | Hc].
    + pose proof (String_split_nonempty sep rest) as Hne.
      simpl. destruct (String_split sep rest) as [ | piece pieces]; [now elim Hne | ].
      simpl in *. now rewrite IH.
    + pose proof (String_split_nonempty sep rest) as Hne.
      destruct (String_split sep rest) as [ | piece pieces]; [now elim Hne | ].
      simpl in *. destruct pieces; simpl in *; now rewrite <- IH.
Qed.

(** A string without the separator is its own single piece. *)
Lemma split_without (sep : ascii) (s : string) :
  String_includes s (String sep EmptyString) = false -> String_split sep s = [s].
Proof.
  induction s as [ | c rest IH]; simpl; intro H.
  - reflexivity.
  - apply orb_false_iff in H. destruct H as [Hp Hrest].
    destruct (Ascii.eqb_spec c sep) as [-> | Hc].
    + destruct (Ascii.ascii_dec sep sep) as [ | N]; [ | now elim N].
      destruct rest; discriminate Hp.
    + now rewrite (IH Hrest).
Qed.

(** The first piece of [a ++ sep ++ b] is [a] when [a] has no separator. *)
Lemma split_first (sep : ascii) (a b : string) :
  String_includes a (String sep EmptyString) = false ->
  String_split sep (a ++ String sep b) = a :: String_split sep b.
Proof.
  induction a as [ | c rest IH]; simpl; intro H.
  - now rewrite Ascii.eqb_refl.
  - apply orb_false_iff in H. destruct H as [Hp Hrest].
    destruct (Ascii.eqb_spec c sep) as [-> | Hc].
    + destruct (Ascii.ascii_dec sep sep) as [ | N]; [ | now elim N].
      destruct rest; discriminate Hp.
    + now rewrite (IH Hrest).
Qed.

(** A string with the separator is a piece without it, the separator, and
    the rest. *)
Lemma includes_decompose (sep : ascii) (s : string) :
  String_includes s (String sep EmptyString) = true ->
  exists a b, s = (a ++ String sep b)%string
              /\ String_includes a (String sep EmptyString) = false.
Proof.
  induction s as [ | c rest IH]; simpl; intro H.
  - discriminate H.
  - destruct (Ascii.eqb_spec c sep) as [-> | Hc].
    + exists EmptyString, rest. split; reflexivity.
    + destruct (Ascii.ascii_dec sep c) as [E | _]; [now elim Hc | ].
      simpl in H. destruct (IH H) as (a & b & -> & Ha).
      exists (String c a), b. split; [reflexivity | ].
      simpl. destruct (Ascii.ascii_dec sep c) as [E | _]; [now elim Hc | ].
      exact Ha.
Qed.

Lemma includes_append (sep : ascii) (a b : string) :
  String_includes (a ++ String sep b) (String sep EmptyString) = true.
Proof.
  induction a as [ | c rest IH]; simpl.
  - destruct (Ascii.ascii_dec sep sep) as [ | N]; [ | now elim N].
    now destruct b.
  - rewrite IH. apply orb_true_r.
Qed.

Lemma Platform_value_no_colon (p : Platform) :
  String_includes (Platform_value p) ":" = false.
Proof. now destruct p. Qed.

Lemma Platform_of_value_spec (s : string) (p : Platform) :
  Platform_of_value s = Some p <-> s = Platform_value p.
Proof.
  split.
  - intro H. apply find_some in H. destruct H as [_ H].
    symmetry. now apply String.eqb_eq.
  - intros ->. now destruct p.
Qed.

Lemma includes_Platform_value (s : string) :
  Array_includes String.eqb Object_values_Platform s = true
  <-> exists p, s = Platform_value p.
Proof.
  unfold Array_includes, Object_values_Platform. rewrite existsb_exists. split.
  - intros [v [Hin Hv]]. apply in_map_iff in Hin. destruct Hin as [p [<- _]].
    exists p. now apply String.eqb_eq.
  - intros [p ->]. exists (Platform_value p). split.
    + apply in_map. destruct p; simpl; tauto.
    + apply String.eqb_refl.
Qed.

Lemma split_created (p : Platform) (platformDeviceId : string) :
  String_split ":" (createUniversalDeviceId p platformDeviceId)
  = Platform_value p :: String_split ":" platformDeviceId.
Proof.
  unfold createUniversalDeviceId.
  apply (split_first ":" (Platform_value p) platformDeviceId).
  apply Platform_value_no_colon.
Qed.

Lemma created_accepted (p : Platform) (platformDeviceId : string) :
  isUniversalDeviceId (createUniversalDeviceId p platformDeviceId) = true.
Proof.
  unfold isUniversalDeviceId. rewrite split_created.
  change (createUniversalDeviceId p platformDeviceId)
    with (Platform_value p ++ String ":" platformDeviceId)%string.
  rewrite (includes_append ":" (Platform_value p) platformDeviceId). simpl.
  apply includes_Platform_value. now exists p.
Qed.

(** X1. An identifier made by [createUniversalDeviceId] is accepted by
    [isUniversalDeviceId] and parsed back into the platform and the
    platform-specific identifier it was made of, whatever that identifier
    is: empty, or with colons of its own. *)
Theorem create_then_parse (p : Platform) (platformDeviceId : string) :
  isUniversalDeviceId (createUniversalDeviceId p platformDeviceId) = true
  /\ parseUniversalDeviceId (createUniversalDeviceId p platformDeviceId)
     = Returns {| parsed_platform := p; parsed_platformDeviceId := platformDeviceId |}.
Proof.
  pose proof (created_accepted p platformDeviceId) as Hid.
  split; [exact Hid | ].
  unfold parseUniversalDeviceId. rewrite Hid, split_created. simpl negb. cbv iota.
  rewrite (proj2 (Platform_of_value_spec (Platform_value p) p) eq_refl).
  now rewrite (join_split ":" platformDeviceId).
Qed.

(** X2. [isUniversalDeviceId] accepts exactly the strings that
    [createUniversalDeviceId] makes: those that start with the value of a
    platform followed by a colon.  A string without a colon, or whose part
    before the first colon is not the value of a platform, is refused. *)
Theorem isUniversalDeviceId_exactly_created (id : string) :
  isUniversalDeviceId id = true
  <-> exists p platformDeviceId, id = createUniversalDeviceId p platformDeviceId.
Proof.
  split.
  - unfold isUniversalDeviceId. intro H.
    destruct (String_includes id ":") eqn:Hinc; [ | discriminate H]. simpl in H.
    destruct (includes_decompose ":" id Hinc) as (a & b & -> & Ha).
    rewrite (split_first ":" a b Ha) in H.
    apply includes_Platform_value in H. destruct H as [p ->].
    now exists p, b.
  - intros (p & platformDeviceId & ->). apply created_accepted.
Qed.

(** X3. [parseUniversalDeviceId] throws 'Invalid universal device ID
    format' exactly on the strings that [isUniversalDeviceId] refuses, and
    returns on all others; what it returns makes the identifier again by
    [createUniversalDeviceId].  Its second check never fires: it throws
    'Unknown platform in device ID' on no input. *)
Theorem parse_outcomes (id : string) :
  (isUniversalDeviceId id = false ->
   parseUniversalDeviceId id
   = ThrowsError ("Invalid universal device ID format: " ++ id))
  /\ (isUniversalDeviceId id = true ->
      exists parsed,
        parseUniversalDeviceId id = Returns parsed
        /\ createUniversalDeviceId (parsed_platform parsed) (parsed_platformDeviceId parsed)
           = id)
  /\ (forall platformStr,
        parseUniversalDeviceId id
        <> ThrowsError ("Unknown platform in device ID: " ++ platformStr)).
Proof.
  assert (Hno : isUniversalDeviceId id = false ->
                parseUniversalDeviceId id
                = ThrowsError ("Invalid universal device ID format: " ++ id)).
  { intro H. unfold parseUniversalDeviceId. now rewrite H. }
  assert (Hyes : isUniversalDeviceId id = true ->
                 exists parsed,
                   parseUniversalDeviceId id = Returns parsed
                   /\ createUniversalDeviceId (parsed_platform parsed)
                        (parsed_platformDeviceId parsed) = id).
  { intro H. pose proof H as Hacc. unfold isUniversalDeviceId in H.
    destruct (String_includes id ":") eqn:Hinc; [ | discriminate H]. simpl in H.
    destruct (includes_decompose ":" id Hinc) as (a & b & -> & Ha).
    rewrite (split_first ":" a b Ha) in H.
    apply includes_Platform_value in H. destruct H as [p ->].
    exists {| parsed_platform := p; parsed_platformDeviceId := b |}.
    split; [ | reflexivity].
    unfold parseUniversalDeviceId. rewrite Hacc. simpl negb. cbv iota.
    rewrite (split_first ":" (Platform_value p) b Ha).
    rewrite (proj2 (Platform_of_value_spec (Platform_value p) p) eq_refl).
    now rewrite (join_split ":" b). }
  repeat apply conj; try assumption.
  intros platformStr E.
  destruct (isUniversalDeviceId id) eqn:H.
  - destruct (Hyes eq_refl) as (parsed & Hp & _). rewrite Hp in E. discriminate E.
  - rewrite (Hno eq_refl) in E. simpl in E. discriminate E.
Qed.

(** An identifier that is no platform followed by a colon. *)
Lemma parse_outcomes_refused :
  isUniversalDeviceId "hue:lamp-1" = false
  /\ parseUniversalDeviceId "hue:lamp-1"
     = ThrowsError "Invalid universal device ID format: hue:lamp-1".
Proof.
  split; [reflexivity | ].
  apply (proj1 (parse_outcomes "hue:lamp-1")). reflexivity.
Defined.

Lemma includes_DeviceCapability_value (s : string) :
  Array_includes String.eqb Object_values_DeviceCapability s = true
  <-> exists c, s = DeviceCapability_value c.
Proof.
  unfold Array_includes, Object_values_DeviceCapability. rewrite existsb_exists. split.
  - intros [v [Hin Hv]]. apply in_map_iff in Hin. destruct Hin as [c [<- _]].
    exists c. now apply String.eqb_eq.
  - intros [c ->]. exists (DeviceCapability_value c). split.
    + apply in_map, all_capabilities_complete.
    + apply String.eqb_refl.
Qed.

(** X4. The type guards accept exactly the values of the enums:
    [isPlatform(v)] holds exactly when [v] is the string value of one of the
    3 platforms, [isDeviceCapability(v)] exactly when it is the string value
    of one of the 31 capabilities; a value that is not a string is
    refused by both. *)
Theorem type_guards_exact (value : JsValue) :
  (isPlatform value = true <-> exists p, value = JStr (Platform_value p))
  /\ (isDeviceCapability value = true <-> exists c, value = JStr (DeviceCapability_value c))
  /\ ((forall s, value <> JStr s) -> isPlatform value = false /\ isDeviceCapability value = false).
Proof.
  split; [ | split].
  - split.
    + destruct value; simpl; try discriminate. intro H.
      apply includes_Platform_value in H. destruct H as [p ->]. now exists p.
    + intros [p ->]. simpl. apply includes_Platform_value. now exists p.
  - split.
    + destruct value; simpl; try discriminate. intro H.
      apply includes_DeviceCapability_value in H. destruct H as [c ->]. now exists c.
    + intros [c ->]. simpl. apply includes_DeviceCapability_value. now exists c.
  - intro H. destruct value; simpl; try (split; reflexivity). now elim (H s).
Qed.

(** ** Capabilities of a device *)

Lemma includes_capability (caps : list DeviceCapability) (c : DeviceCapability) :
  Array_includes DeviceCapability_eqb caps c = true <-> In c caps.
Proof.
  unfold Array_includes. rewrite existsb_exists. split.
  - intros [x [Hin Hx]]. apply DeviceCapability_eqb_eq in Hx. now subst x.
  - intro H. exists c. split; [exact H | now apply DeviceCapability_eqb_eq].
Qed.

(** X5. [hasCapability] is membership in the device's capability list;
    [hasAllCapabilities] holds when every listed capability is a member and
    [hasAnyCapability] when some is.  On the empty list the first is true
    and the second false; on a list that is not empty the first implies the
    second; and every device has all of its own capabilities. *)
Theorem capability_checks (device : UnifiedDevice) :
  (forall c, hasCapability device c = true <-> In c (device_capabilities device))
  /\ (forall caps, hasAllCapabilities device caps = true
                   <-> forall c, In c caps -> hasCapability device c = true)
  /\ (forall caps, hasAnyCapability device caps = true
                   <-> exists c, In c caps /\ hasCapability device c = true)
  /\ hasAllCapabilities device [] = true
  /\ hasAnyCapability device [] = false
  /\ (forall caps, caps <> [] -> hasAllCapabilities device caps = true ->
                   hasAnyCapability device caps = true)
  /\ hasAllCapabilities device (getActiveCapabilities device) = true.
Proof.
  assert (Hall : forall caps, hasAllCapabilities device caps = true
                   <-> forall c, In c caps -> hasCapability device c = true).
  { intro caps. unfold hasAllCapabilities, hasCapability. apply forallb_forall. }
  assert (Hany : forall caps, hasAnyCapability device caps = true
                   <-> exists c, In c caps /\ hasCapability device c = true).
  { intro caps. unfold hasAnyCapability, hasCapability. apply existsb_exists. }
  repeat apply conj; try assumption; try reflexivity.
  - intro c. apply includes_capability.
  - intros caps Hne H. apply Hany. destruct caps as [ | c rest]; [now elim Hne | ].
    exists c. split; [now left | ]. apply (proj1 (Hall _) H). now left.
  - apply Hall. intros c Hc. now apply includes_capability.
Qed.

(** A device that dims has some capability of a lighting list. *)
Lemma capability_checks_dimmer :
  let device :=
    {| device_id := "tuya:bf12"; device_platform := TUYA; device_platformDeviceId := "bf12";
       device_name := "Desk lamp"; device_label := None; device_manufacturer := None;
       device_model := None; device_firmwareVersion := None; device_room := None;
       device_location := None; device_capabilities := [SWITCH; DIMMER];
       device_capabilityGroups := None; device_online := true; device_lastSeen := None;
       device_platformSpecific := None |} in
  hasAllCapabilities device [DIMMER; SWITCH] = true
  /\ hasAnyCapability device [DIMMER; SWITCH] = true.
Proof.
  intro device. split; [reflexivity | ].
  apply (proj1 (proj2 (proj2 (proj2 (proj2 (proj2 (capability_checks device))))))
           [DIMMER; SWITCH]).
  - discriminate.
  - reflexivity.
Defined.

Lemma hasAny_exists (device : UnifiedDevice) (caps : list DeviceCapability) :
  hasAnyCapability device caps = true
  <-> exists c, In c (device_capabilities device) /\ In c caps.
Proof.
  unfold hasAnyCapability. rewrite existsb_exists. split.
  - intros [c [Hc H]]. apply includes_capability in H. now exists c.
  - intros [c [H Hc]]. exists c. split; [exact Hc | now apply includes_capability].
Qed.

(** X6. [isSensorDevice] holds exactly for the devices with one of 12
    capabilities and [isControllerDevice] exactly for those with one of 11
    others; every capability is in exactly one of these two lists or among
    the 8 that decide nothing: BATTERY, BUTTON and the six composite
    ones.  A device all of whose capabilities are among those 8 (one
    without capabilities too) is neither a sensor nor a controller. *)
Theorem sensor_controller_classes (device : UnifiedDevice) :
  (isSensorDevice device = true
   <-> exists c, In c (device_capabilities device) /\ In c sensor_list)
  /\ (isControllerDevice device = true
      <-> exists c, In c (device_capabilities device) /\ In c control_list)
  /\ (forall c, (In c sensor_list /\ ~ In c control_list /\ ~ In c unclassified_capabilities)
                \/ (~ In c sensor_list /\ In c control_list /\ ~ In c unclassified_capabilities)
                \/ (~ In c sensor_list /\ ~ In c control_list /\ In c unclassified_capabilities))
  /\ ((forall c, In c (device_capabilities device) -> In c unclassified_capabilities) ->
      isSensorDevice device = false /\ isControllerDevice device = false).
Proof.
  assert (Hs : isSensorDevice device = true
               <-> exists c, In c (device_capabilities device) /\ In c sensor_list)
    by apply hasAny_exists.
  assert (Hc : isControllerDevice device = true
               <-> exists c, In c (device_capabilities device) /\ In c control_list)
    by apply hasAny_exists.
  assert (Hclass : forall c,
             (In c sensor_list /\ ~ In c control_list /\ ~ In c unclassified_capabilities)
             \/ (~ In c sensor_list /\ In c control_list /\ ~ In c unclassified_capabilities)
             \/ (~ In c sensor_list /\ ~ In c control_list /\ In c unclassified_capabilities)).
  { intro c.
    destruct c; simpl;
      first [ left; solve [intuition discriminate]
            | right; left; solve [intuition discriminate]
            | right; right; solve [intuition discriminate] ]. }
  split; [exact Hs | split; [exact Hc | split; [exact Hclass | ] ] ].
  intro Hall. split.
  - apply not_true_is_false. intro H. apply Hs in H. destruct H as [c [Hin Hsen]].
    specialize (Hall c Hin). destruct (Hclass c) as [H | [H | H]]; tauto.
  - apply not_true_is_false. intro H. apply Hc in H. destruct H as [c [Hin Hcon]].
    specialize (Hall c Hin). destruct (Hclass c) as [H | [H | H]]; tauto.
Qed.

(** A battery-powered button is neither. *)
Lemma sensor_controller_classes_button :
  let device :=
    {| device_id := "smartthings:b-1"; device_platform := SMARTTHINGS;
       device_platformDeviceId := "b-1"; device_name := "Button"; device_label := None;
       device_manufacturer := None; device_model := None; device_firmwareVersion := None;
       device_room := None; device_location := None;
       device_capabilities := [BUTTON; BATTERY];
       device_capabilityGroups := None; device_online := true; device_lastSeen := None;
       device_platformSpecific := None |} in
  isSensorDevice device = false /\ isControllerDevice device = false.
Proof.
  intro device.
  apply (proj2 (proj2 (proj2 (sensor_controller_classes device)))).
  intros c [<- | [<- | []]]; simpl; tauto.
Defined.

(** ** Capability groups *)

Lemma find_first {A} (f : A -> bool) (l : list A) (x : A) :
  find f l = Some x ->
  exists before after, l = before ++ x :: after /\ f x = true
                       /\ forall y, In y before -> f y = false.
Proof.
  induction l as [ | a l IH]; simpl; intro H.
  - discriminate H.
  - destruct (f a) eqn:Ha.
    + injection H as ->. exists [], l. repeat split; auto. intros y [].
    + destruct (IH H) as (before & after & -> & Hx & Hb).
      exists (a :: before), after. repeat split; auto.
      intros y [<- | Hy]; auto.
Qed.

(** X7. [findCapabilityGroup] returns the first group of the device whose
    id is the one asked for, and nothing exactly when no group has that id;
    [getGroupCapabilities] is the capability list of that first group, and
    the empty list when there is none.  For a device without
    [capabilityGroups] the three functions give the empty list, nothing and
    the empty list. *)
Theorem capability_group_lookup (device : UnifiedDevice) (groupId : string) :
  (forall group,
      findCapabilityGroup device groupId = Some group ->
      group_id group = groupId
      /\ getGroupCapabilities device groupId = group_capabilities group
      /\ exists before after,
           getCapabilityGroups device = before ++ group :: after
           /\ forall g, In g before -> group_id g <> groupId)
  /\ (findCapabilityGroup device groupId = None
      <-> forall g, In g (getCapabilityGroups device) -> group_id g <> groupId)
  /\ (findCapabilityGroup device groupId = None -> getGroupCapabilities device groupId = [])
  /\ (device_capabilityGroups device = None ->
      getCapabilityGroups device = [] /\ findCapabilityGroup device groupId = None
      /\ getGroupCapabilities device groupId = []).
Proof.
  split; [ | split; [ | split] ].
  - intros group H. unfold getGroupCapabilities. rewrite H.
    unfold findCapabilityGroup, getCapabilityGroups in *.
    destruct (device_capabilityGroups device) as [groups | ]; [ | discriminate H].
    destruct (find_first _ _ _ H) as (before & after & -> & Hid & Hb).
    apply String.eqb_eq in Hid.
    repeat split; auto. exists before, after. split; [reflexivity | ].
    intros g Hg E. specialize (Hb g Hg). apply String.eqb_neq in Hb. contradiction.
  - unfold findCapabilityGroup, getCapabilityGroups.
    destruct (device_capabilityGroups device) as [groups | ].
    + split.
      * intros H g Hg. apply String.eqb_neq. exact (find_none _ _ H g Hg).
      * intro H. destruct (find _ groups) as [g | ] eqn:E; [ | reflexivity].
        apply find_some in E. destruct E as [Hin Hid]. apply String.eqb_eq in Hid.
        now elim (H g Hin).
    + split; [intros _ g [] | reflexivity].
  - intro H. unfold getGroupCapabilities. now rewrite H.
  - intro H. unfold getGroupCapabilities, findCapabilityGroup, getCapabilityGroups.
    now rewrite H.
Qed.

(** Two groups with the id [main]: the first one answers. *)
Lemma capability_group_lookup_first :
  let main := {| group_id := "main"; group_name := "Main Controls";
                 group_capabilities := [THERMOSTAT; TEMPERATURE_SENSOR];
                 group_componentId := None; group_description := None |} in
  let again := {| group_id := "main"; group_name := "Humidity Sensor";
                  group_capabilities := [HUMIDITY_SENSOR];
                  group_componentId := Some "humidity"; group_description := None |} in
  let device :=
    {| device_id := "smartthings:t-1"; device_platform := SMARTTHINGS;
       device_platformDeviceId := "t-1"; device_name := "Thermostat"; device_label := None;
       device_manufacturer := None; device_model := None; device_firmwareVersion := None;
       device_room := None; device_location := None;
       device_capabilities := [THERMOSTAT; TEMPERATURE_SENSOR; HUMIDITY_SENSOR];
       device_capabilityGroups := Some [main; again]; device_online := true;
       device_lastSeen := None; device_platformSpecific := None |} in
  findCapabilityGroup device "main" = Some main
  /\ getGroupCapabilities device "main" = [THERMOSTAT; TEMPERATURE_SENSOR].
Proof.
  intros main again device. split; [reflexivity | ].
  apply (proj1 (capability_group_lookup device "main") main). reflexivity.
Defined.

(** ** Registering and looking up *)

Lemma size_set {V} (k : string) (v : V) (m : JsMap.t V) :
  JsMap.size (JsMap.set k v m) = if JsMap.has k m then JsMap.size m else S (JsMap.size m).
Proof.
  unfold JsMap.size. rewrite <- !(length_map fst). fold (JsMap.keys (JsMap.set k v m)).
  fold (JsMap.keys m). rewrite keys_set.
  destruct (JsMap.has k m); [reflexivity | ].
  rewrite length_app. simpl. lia.
Qed.

Lemma has_set {V} (k k' : string) (v : V) (m : JsMap.t V) :
  JsMap.has k' (JsMap.set k v m) = String.eqb k k' || JsMap.has k' m.
Proof. unfold JsMap.has. rewrite get_set. now destruct (String.eqb k k'). Qed.

Lemma get_In {V} (k : string) (v : V) (m : JsMap.t V) :
  JsMap.get k m = Some v -> In (k, v) m.
Proof.
  induction m as [ | [k0 v0] rest IH]; simpl; intro H.
  - discriminate H.
  - destruct (String.eqb_spec k0 k) as [-> | ].
    + injection H as ->. now left.
    + right. now apply IH.
Qed.

Lemma In_get {V} (k : string) (v : V) (m : JsMap.t V) :
  NoDup (JsMap.keys m) -> In (k, v) m -> JsMap.get k m = Some v.
Proof.
  induction m as [ | [k0 v0] rest IH]; simpl; intros Hnd Hin.
  - contradiction.
  - inversion Hnd as [ | ? ? Hnot Hrest]; subst.
    destruct Hin as [E | Hin].
    + injection E as -> ->. now rewrite String.eqb_refl.
    + destruct (String.eqb_spec k0 k) as [-> | ]; [ | now apply IH].
      elim Hnot. change k with (fst (k, v)). now apply in_map.
Qed.

(** X8. Whatever the registry held, right after [register(m)] the forward
    lookups under [(m.platform, m.platformCapability)] give [m] and its
    unified capability, the reverse lookup under
    [(m.platform, m.unifiedCapability)] gives [m.platformCapability], and
    the platform is reported to support the capability. *)
Theorem register_then_lookup (m : PlatformCapabilityMapping) (w : World) :
  let w' := exec (CapabilityRegistry.register m) w in
  CapabilityRegistry.getMapping (platform m) (platformCapability m) w' = (Normal (Some m), w')
  /\ CapabilityRegistry.getUnifiedCapability (platform m) (platformCapability m) w'
     = (Normal (Some (unifiedCapability m)), w')
  /\ CapabilityRegistry.getPlatformCapability (platform m) (unifiedCapability m) w'
     = (Normal (Some (platformCapability m)), w')
  /\ CapabilityRegistry.isPlatformSupported (platform m) (unifiedCapability m) w'
     = (Normal true, w').
Proof.
  intro w'.
  assert (Hf : JsMap.get (forward_key m) (mappings w') = Some m).
  { subst w'. now rewrite register_mappings, get_set, String.eqb_refl. }
  assert (Hr : JsMap.get (reverse_key m) (reverseMappings w') = Some (platformCapability m)).
  { subst w'. now rewrite register_reverseMappings, get_set, String.eqb_refl. }
  unfold forward_key in Hf. unfold reverse_key in Hr.
  unfold CapabilityRegistry.getMapping, CapabilityRegistry.getUnifiedCapability,
    CapabilityRegistry.getPlatformCapability, CapabilityRegistry.isPlatformSupported,
    bind, read, ret, JsMap.has.
  now rewrite Hf, Hr.
Qed.

(** X9. [register(m)] changes no lookup under another key: the forward
    lookups of every other (platform, platform capability) pair and the
    reverse lookups of every other (platform, unified capability) pair
    answer as before, and the conversions are not touched. *)
Theorem register_other_keys (m : PlatformCapabilityMapping) (w : World) :
  let w' := exec (CapabilityRegistry.register m) w in
  (forall p name,
      p <> platform m \/ name <> platformCapability m ->
      result (CapabilityRegistry.getMapping p name) w'
      = result (CapabilityRegistry.getMapping p name) w
      /\ result (CapabilityRegistry.getUnifiedCapability p name) w'
         = result (CapabilityRegistry.getUnifiedCapability p name) w)
  /\ (forall p u,
      p <> platform m \/ u <> unifiedCapability m ->
      result (CapabilityRegistry.getPlatformCapability p u) w'
      = result (CapabilityRegistry.getPlatformCapability p u) w
      /\ result (CapabilityRegistry.isPlatformSupported p u) w'
         = result (CapabilityRegistry.isPlatformSupported p u) w)
  /\ conversions w' = conversions w.
Proof.
  intro w'. split; [ | split].
  - intros p name Hne.
    assert (Hk : String.eqb (forward_key m) (CapabilityRegistry.makeKey p name) = false).
    { rewrite forward_key_eqb. unfold forward_match. apply andb_false_iff.
      destruct Hne as [Hp | Hn].
      - left. apply not_true_is_false. intro E. apply Platform_eqb_eq in E. now elim Hp.
      - right. apply String.eqb_neq. congruence. }
    unfold CapabilityRegistry.getMapping, CapabilityRegistry.getUnifiedCapability,
      result, bind, read, ret; simpl.
    subst w'. now rewrite register_mappings, get_set, Hk.
  - intros p u Hne.
    assert (Hk : String.eqb (reverse_key m)
                   (CapabilityRegistry.makeKey p (DeviceCapability_value u)) = false).
    { rewrite reverse_key_eqb. unfold reverse_match. apply andb_false_iff.
      destruct Hne as [Hp | Hu].
      - left. apply not_true_is_false. intro E. apply Platform_eqb_eq in E. now elim Hp.
      - right. apply not_true_is_false. intro E. apply DeviceCapability_eqb_eq in E.
        now elim Hu. }
    unfold CapabilityRegistry.getPlatformCapability, CapabilityRegistry.isPlatformSupported,
      result, read, JsMap.has; simpl.
    subst w'. now rewrite register_reverseMappings, get_set, Hk.
  - apply register_conversions.
Qed.

(** Registering the Tuya switch leaves the SmartThings switch as it was. *)
Lemma register_other_keys_tuya :
  let w := exec initializeCapabilityMappings empty_world in
  let m := plain TUYA "switch_2" SWITCH false in
  result (CapabilityRegistry.getUnifiedCapability SMARTTHINGS "switch")
         (exec (CapabilityRegistry.register m) w)
  = Normal (Some SWITCH).
Proof.
  intros w m.
  pose proof (register_other_keys m w) as H. cbv zeta in H. destruct H as (Hf & _).
  destruct (Hf SMARTTHINGS "switch") as [_ H]; [left; discriminate | ].
  rewrite H. reflexivity.
Defined.

(** ** Counting *)

Lemma registerAll_size (ms : list PlatformCapabilityMapping) (w : World) :
  JsMap.size (mappings (exec (registerAll ms) w)) <= JsMap.size (mappings w) + List.length ms.
Proof.
  revert w. induction ms as [ | m ms IH]; intro w.
  - change (exec (registerAll []) w) with w. simpl List.length. lia.
  - rewrite registerAll_cons. specialize (IH (exec (CapabilityRegistry.register m) w)).
    rewrite register_mappings, size_set in IH. simpl List.length.
    destruct (JsMap.has (forward_key m) (mappings w)); lia.
Qed.

Lemma registerAll_keeps_keys (ms : list PlatformCapabilityMapping) (w : World) (k : string) :
  JsMap.has k (mappings w) = true -> JsMap.has k (mappings (exec (registerAll ms) w)) = true.
Proof.
  revert w. induction ms as [ | m ms IH]; intros w H.
  - exact H.
  - rewrite registerAll_cons. apply IH.
    rewrite register_mappings, has_set, H. apply orb_true_r.
Qed.

Lemma registerAll_size_distinct (ms : list PlatformCapabilityMapping) (w : World) :
  NoDup (List.map forward_key ms) ->
  (forall m, In m ms -> JsMap.has (forward_key m) (mappings w) = false) ->
  JsMap.size (mappings (exec (registerAll ms) w)) = JsMap.size (mappings w) + List.length ms.
Proof.
  revert w. induction ms as [ | m ms IH]; intros w Hnd Hnew.
  - change (exec (registerAll []) w) with w. simpl List.length. lia.
  - simpl in Hnd. inversion Hnd as [ | ? ? Hnot Hrest]; subst.
    rewrite registerAll_cons, IH.
    + rewrite register_mappings, size_set, (Hnew m (or_introl eq_refl)).
      simpl List.length. lia.
    + exact Hrest.
    + intros m' Hm'. rewrite register_mappings, has_set, (Hnew m' (or_intror Hm')).
      rewrite orb_false_r. apply String.eqb_neq. intro E. apply Hnot.
      rewrite E. now apply in_map.
Qed.

(** X10. [register(m)] adds one to [getMappingCount()] when [getMapping]
    found nothing under the pair of [m], and leaves the count as it is when
    it replaces an entry.  After [clear()] and any sequence of [register]
    calls the count is at most the number of calls, and equal to it when
    the calls are for pairwise different (platform, platform capability)
    pairs. *)
Theorem mapping_count (m : PlatformCapabilityMapping) (w : World) :
  (exists n before,
      result CapabilityRegistry.getMappingCount w = Normal n
      /\ result (CapabilityRegistry.getMapping (platform m) (platformCapability m)) w
         = Normal before
      /\ result CapabilityRegistry.getMappingCount (exec (CapabilityRegistry.register m) w)
         = Normal (match before with Some _ => n | None => S n end))
  /\ (forall ms,
        exists n,
          result CapabilityRegistry.getMappingCount
                 (exec (registerAll ms) (exec CapabilityRegistry.clear w)) = Normal n
          /\ n <= List.length ms
          /\ (NoDup (List.map forward_key ms) -> n = List.length ms)).
Proof.
  split.
  - exists (JsMap.size (mappings w)),
           (JsMap.get (CapabilityRegistry.makeKey (platform m) (platformCapability m))
                      (mappings w)).
    split; [reflexivity | split; [reflexivity | ] ].
    unfold CapabilityRegistry.getMappingCount, result, read; simpl.
    rewrite register_mappings, size_set. unfold JsMap.has, forward_key.
    now destruct (JsMap.get _ (mappings w)).
  - intro ms.
    exists (JsMap.size (mappings (exec (registerAll ms) (exec CapabilityRegistry.clear w)))).
    split; [reflexivity | split].
    + apply (registerAll_size ms (exec CapabilityRegistry.clear w)).
    + intro Hnd.
      now rewrite (registerAll_size_distinct ms (exec CapabilityRegistry.clear w) Hnd).
Qed.

(** ** The platform names of a platform *)

Lemma forward_entries_lookup (p : Platform) (w : World) (m : PlatformCapabilityMapping) :
  well_keyed w -> In m (forward_entries p w) ->
  JsMap.get (CapabilityRegistry.makeKey p (platformCapability m)) (mappings w) = Some m.
Proof.
  intros Hw Hin. apply filter_In in Hin. destruct Hin as [Hin Hp].
  apply Platform_eqb_eq in Hp.
  apply in_map_iff in Hin. destruct Hin as [[k m'] [E Hin]]. simpl in E. subst m'.
  pose proof (proj1 (Forall_forall _ _) (proj2 Hw) _ Hin) as Hk. simpl in Hk.
  rewrite <- Hp. fold (forward_key m). rewrite <- Hk.
  apply In_get; [exact (proj1 Hw) | exact Hin].
Qed.

Lemma lookup_forward_entries (p : Platform) (w : World) (name : string)
      (m : PlatformCapabilityMapping) :
  well_keyed w ->
  JsMap.get (CapabilityRegistry.makeKey p name) (mappings w) = Some m ->
  In m (forward_entries p w) /\ platformCapability m = name.
Proof.
  intros Hw Hget. apply get_In in Hget.
  pose proof (proj1 (Forall_forall _ _) (proj2 Hw) _ Hget) as Hk. simpl in Hk.
  apply makeKey_inj in Hk. destruct Hk as [Hp Hn].
  split; [ | now symmetry].
  apply filter_In. split.
  - change m with (snd (CapabilityRegistry.makeKey p name, m)). now apply in_map.
  - apply Platform_eqb_eq. now symmetry.
Qed.

(** X11. For the registry left by any sequence of [register] calls on a
    cleared registry, [getPlatformCapabilities(platform)] lists every
    platform name that has a forward entry for the platform, each once;
    [getUnifiedCapability] answers for exactly these names; and
    [getSupportedCapabilities(platform)] is, position by position, what
    [getUnifiedCapability] answers for them. *)
Theorem platform_names_align (ms : list PlatformCapabilityMapping) (w0 : World) (p : Platform) :
  let w := exec (registerAll ms) (exec CapabilityRegistry.clear w0) in
  exists names caps,
    CapabilityRegistry.getPlatformCapabilities p w = (Normal names, w)
    /\ CapabilityRegistry.getSupportedCapabilities p w = (Normal caps, w)
    /\ NoDup names
    /\ (forall name,
          In name names
          <-> result (CapabilityRegistry.getUnifiedCapability p name) w <> Normal None)
    /\ List.map (fun name => result (CapabilityRegistry.getUnifiedCapability p name) w) names
       = List.map (fun c => Normal (Some c)) caps.
Proof.
  intro w.
  assert (Hw : well_keyed w) by apply well_keyed_registerAll, well_keyed_clear.
  exists (map platformCapability (forward_entries p w)),
         (map unifiedCapability (forward_entries p w)).
  assert (Hlook : forall m, In m (forward_entries p w) ->
             result (CapabilityRegistry.getUnifiedCapability p (platformCapability m)) w
             = Normal (Some (unifiedCapability m))).
  { intros m Hm.
    unfold CapabilityRegistry.getUnifiedCapability, result, bind, read, ret; simpl.
    now rewrite (forward_entries_lookup p w m Hw Hm). }
  split; [ | split; [ | split; [ | split] ] ].
  - unfold CapabilityRegistry.getPlatformCapabilities, bind, read, ret.
    now rewrite collect_loop by exact (proj2 Hw).
  - unfold CapabilityRegistry.getSupportedCapabilities, bind, read, ret.
    now rewrite collect_loop by exact (proj2 Hw).
  - apply injective_NoDup_map.
    + now apply forward_entries_NoDup.
    + intros m1 m2 H1 H2 E. now apply forward_entries_same_name with (p := p) (w := w).
  - intro name. split.
    + intro Hin. apply in_map_iff in Hin. destruct Hin as [m [<- Hm]].
      rewrite (Hlook m Hm). discriminate.
    + intro H.
      unfold CapabilityRegistry.getUnifiedCapability, result, bind, read, ret in H;
        simpl in H.
      destruct (JsMap.get (CapabilityRegistry.makeKey p name) (mappings w)) as [m | ] eqn:E;
        [ | now elim H].
      destruct (lookup_forward_entries p w name m Hw E) as [Hm <-].
      now apply in_map.
  - rewrite !map_map. apply map_ext_in. exact Hlook.
Qed.

(** ** Forward and reverse entries *)

Lemma maps_linked_clear (w : World) : maps_linked (exec CapabilityRegistry.clear w).
Proof. split; simpl; intros; contradiction. Qed.

Lemma maps_linked_register (m : PlatformCapabilityMapping) (w : World) :
  maps_linked w -> maps_linked (exec (CapabilityRegistry.register m) w).
Proof.
  intros [Hf Hr]. split.
  - intros m' Hm'. rewrite register_mappings in Hm'. rewrite register_reverseMappings, has_set.
    apply in_map_iff in Hm'. destruct Hm' as [[k x] [E Hin]]. simpl in E. subst x.
    destruct (In_set _ _ _ _ Hin) as [E | Hold].
    + injection E as _ ->. now rewrite String.eqb_refl.
    + rewrite (Hf m'); [apply orb_true_r | ].
      change m' with (snd (k, m')). now apply in_map.
  - intros k name Hin. rewrite register_reverseMappings in Hin. rewrite register_mappings.
    destruct (In_set _ _ _ _ Hin) as [E | Hold].
    + injection E as -> ->. exists (platform m), (unifiedCapability m).
      split; [reflexivity | ]. rewrite has_set. fold (forward_key m).
      now rewrite String.eqb_refl.
    + destruct (Hr k name Hold) as (p & u & -> & Hhas).
      exists p, u. split; [reflexivity | ]. rewrite has_set, Hhas. apply orb_true_r.
Qed.

Lemma maps_linked_registerAll (ms : list PlatformCapabilityMapping) (w : World) :
  maps_linked w -> maps_linked (exec (registerAll ms) w).
Proof.
  revert w. induction ms as [ | m ms IH]; intros w H.
  - exact H.
  - rewrite registerAll_cons. now apply IH, maps_linked_register.
Qed.

(** X12. For the registry left by any sequence of [register] calls on a
    cleared registry: every capability in
    [getSupportedCapabilities(platform)] is reported by
    [isPlatformSupported], and every name that
    [getPlatformCapability(platform, capability)] returns is a name that
    [getUnifiedCapability(platform, name)] knows (for some capability, not
    always the one asked for). *)
Theorem forward_and_reverse_linked (ms : list PlatformCapabilityMapping) (w0 : World)
        (p : Platform) :
  let w := exec (registerAll ms) (exec CapabilityRegistry.clear w0) in
  (forall caps c,
      result (CapabilityRegistry.getSupportedCapabilities p) w = Normal caps ->
      In c caps ->
      result (CapabilityRegistry.isPlatformSupported p c) w = Normal true)
  /\ (forall u name,
      result (CapabilityRegistry.getPlatformCapability p u) w = Normal (Some name) ->
      exists u', result (CapabilityRegistry.getUnifiedCapability p name) w
                 = Normal (Some u')).
Proof.
  intro w.
  assert (Hw : well_keyed w) by apply well_keyed_registerAll, well_keyed_clear.
  assert (Hl : maps_linked w) by apply maps_linked_registerAll, maps_linked_clear.
  split.
  - intros caps c Hcaps Hc.
    unfold CapabilityRegistry.getSupportedCapabilities, result, bind, read, ret in Hcaps;
      simpl in Hcaps.
    rewrite collect_loop in Hcaps by exact (proj2 Hw). simpl in Hcaps.
    injection Hcaps as <-. apply in_map_iff in Hc. destruct Hc as [m [<- Hm]].
    apply filter_In in Hm. destruct Hm as [Hin Hp]. apply Platform_eqb_eq in Hp.
    pose proof (proj1 Hl m Hin) as Hhas. unfold reverse_key in Hhas. rewrite Hp in Hhas.
    unfold CapabilityRegistry.isPlatformSupported, result, read; simpl. now rewrite Hhas.
  - intros u name Hget.
    unfold CapabilityRegistry.getPlatformCapability, result, read in Hget; simpl in Hget.
    injection Hget as Hget. apply get_In in Hget.
    destruct (proj2 Hl _ _ Hget) as (p' & u' & Hk & Hhas).
    apply makeKey_inj in Hk. destruct Hk as [<- _].
    unfold CapabilityRegistry.getUnifiedCapability, result, bind, read, ret; simpl.
    unfold JsMap.has in Hhas.
    destruct (JsMap.get (CapabilityRegistry.makeKey p name) (mappings w)) as [m | ];
      [ | discriminate Hhas].
    now exists (unifiedCapability m).
Qed.

(** The Lutron table: the name returned for SWITCH is known, as a dimmer. *)
Lemma forward_and_reverse_linked_lutron :
  let lutron :=
    [ noted LUTRON "OUTPUT" SWITCH true "Binary 0% or 100% only";
      noted LUTRON "OUTPUT" DIMMER true "Round 0.00-100.00 to 0-100" ] in
  let w := exec (registerAll lutron) (exec CapabilityRegistry.clear empty_world) in
  result (CapabilityRegistry.getPlatformCapability LUTRON SWITCH) w = Normal (Some "OUTPUT")
  /\ exists u', result (CapabilityRegistry.getUnifiedCapability LUTRON "OUTPUT") w
                = Normal (Some u').
Proof.
  intros lutron w. split; [reflexivity | ].
  pose proof (forward_and_reverse_linked lutron empty_world LUTRON) as H.
  cbv zeta in H. destruct H as [_ H].
  apply (H SWITCH "OUTPUT"). reflexivity.
Defined.

(** X13. After [clear()] and any sequence of [register] calls,
    [isPlatformSupported(platform, capability)] is true exactly when some
    call of the sequence registered a mapping of that platform to that
    capability, and exactly when [getPlatformCapability] returns a name;
    a later call that replaces the forward entry of that mapping does not
    withdraw the support. *)
Theorem support_history (ms : list PlatformCapabilityMapping) (w0 : World)
        (p : Platform) (u : DeviceCapability) :
  let w := exec (registerAll ms) (exec CapabilityRegistry.clear w0) in
  result (CapabilityRegistry.isPlatformSupported p u) w
  = Normal (List.existsb (reverse_match p u) ms)
  /\ (result (CapabilityRegistry.isPlatformSupported p u) w = Normal true
      <-> exists name,
            result (CapabilityRegistry.getPlatformCapability p u) w = Normal (Some name))
  /\ (result (CapabilityRegistry.isPlatformSupported p u) w = Normal true
      <-> exists m, In m ms /\ platform m = p /\ unifiedCapability m = u).
Proof.
  intro w.
  assert (Hget : JsMap.get (CapabilityRegistry.makeKey p (DeviceCapability_value u))
                           (reverseMappings w)
                 = option_map platformCapability (last_registered (reverse_match p u) ms)).
  { subst w. rewrite registerAll_reverse.
    now destruct (last_registered (reverse_match p u) ms). }
  assert (Hex : List.existsb (reverse_match p u) ms
                = match last_registered (reverse_match p u) ms with
                  | Some _ => true
                  | None => false
                  end).
  { destruct (last_registered (reverse_match p u) ms) as [m | ] eqn:E.
    - apply last_registered_In in E. apply existsb_exists. now exists m.
    - apply not_true_is_false. intro H. apply existsb_exists in H.
      destruct H as [m [Hin Hm]].
      rewrite (last_registered_None _ _ E m Hin) in Hm. discriminate Hm. }
  assert (H1 : result (CapabilityRegistry.isPlatformSupported p u) w
               = Normal (List.existsb (reverse_match p u) ms)).
  { unfold CapabilityRegistry.isPlatformSupported, result, read, JsMap.has; simpl.
    rewrite Hget, Hex. now destruct (last_registered (reverse_match p u) ms). }
  split; [exact H1 | split].
  - unfold CapabilityRegistry.isPlatformSupported, CapabilityRegistry.getPlatformCapability,
      result, read, JsMap.has; simpl.
    destruct (JsMap.get _ (reverseMappings w)) as [name | ]; split.
    + intros _. now exists name.
    + reflexivity.
    + discriminate.
    + intros [name H]. discriminate H.
  - rewrite H1. split.
    + intro H. injection H as H. apply existsb_exists in H. destruct H as [m [Hin Hm]].
      unfold reverse_match in Hm. apply andb_true_iff in Hm. destruct Hm as [Hp Hu].
      apply Platform_eqb_eq in Hp. apply DeviceCapability_eqb_eq in Hu. now exists m.
    + intros [m [Hin [Hp Hu]]]. f_equal. apply existsb_exists. exists m.
      split; [exact Hin | ]. unfold reverse_match.
      apply andb_true_iff. split;
        [now apply Platform_eqb_eq | now apply DeviceCapability_eqb_eq].
Qed.

(** ** Deprecated mappings *)



(** ** The conversion registry *)

Lemma registerConversions_cons (v : ValueConversionMapping) cs (w : World) :
  exec (registerConversions (v :: cs)) w
  = exec (registerConversions cs) (exec (ValueConversionRegistry.register v) w).
Proof. reflexivity. Qed.

Lemma registerConversions_get (cs : list ValueConversionMapping) (w : World)
      (p : Platform) (c : DeviceCapability) (a : string) :
  JsMap.get (ValueConversionRegistry.makeKey p c a)
            (conversions (exec (registerConversions cs) w))
  = match last_registered (conversion_match p c a) cs with
    | Some v => Some v
    | None => JsMap.get (ValueConversionRegistry.makeKey p c a) (conversions w)
    end.
Proof.
  revert w. induction cs as [ | v cs IH]; intro w.
  - reflexivity.
  - rewrite registerConversions_cons, IH, last_registered_cons.
    destruct (last_registered (conversion_match p c a) cs); [reflexivity | ].
    change (conversions (exec (ValueConversionRegistry.register v) w))
      with (JsMap.set (conversion_key v) v (conversions w)).
    rewrite get_set, conversion_key_eqb.
    now destruct (conversion_match p c a v).
Qed.

Lemma registerConversions_capabilities (cs : list ValueConversionMapping) (w : World) :
  mappings (exec (registerConversions cs) w) = mappings w
  /\ reverseMappings (exec (registerConversions cs) w) = reverseMappings w.
Proof.
  revert w. induction cs as [ | v cs IH]; intro w.
  - split; reflexivity.
  - rewrite registerConversions_cons. destruct (IH (exec (ValueConversionRegistry.register v) w))
      as [-> ->]. split; reflexivity.
Qed.

(** X15. After any sequence of [ValueConversionRegistry.register] calls,
    from any state, the most recent conversion registered for
    [(platform, capability, attribute)] is the one that [getConversion]
    returns and whose converters [toPlatform] and [fromPlatform] apply; a
    triple that the sequence does not register keeps the conversion it had
    before, and the capability maps are not touched. *)
Theorem conversion_last_write_wins (cs : list ValueConversionMapping) (w0 : World)
        (p : Platform) (c : DeviceCapability) (a : string) (value : JsValue) :
  let w := exec (registerConversions cs) w0 in
  (forall conversion,
      last_registered (conversion_match p c a) cs = Some conversion ->
      ValueConversionRegistry.getConversion p c a w = (Normal (Some conversion), w)
      /\ ValueConversionRegistry.hasConversion p c a w = (Normal true, w)
      /\ ValueConversionRegistry.toPlatform p c a value w
         = (vc_toPlatform conversion value, w)
      /\ ValueConversionRegistry.fromPlatform p c a value w
         = (vc_fromPlatform conversion value, w))
  /\ ((forall v, In v cs -> conversion_match p c a v = false) ->
      result (ValueConversionRegistry.getConversion p c a) w
      = result (ValueConversionRegistry.getConversion p c a) w0
      /\ result (ValueConversionRegistry.toPlatform p c a value) w
         = result (ValueConversionRegistry.toPlatform p c a value) w0
      /\ result (ValueConversionRegistry.fromPlatform p c a value) w
         = result (ValueConversionRegistry.fromPlatform p c a value) w0)
  /\ mappings w = mappings w0 /\ reverseMappings w = reverseMappings w0.
Proof.
  intro w.
  pose proof (registerConversions_get cs w0 p c a) as Hget. fold w in Hget.
  split; [ | split; [ | apply registerConversions_capabilities] ].
  - intros conversion E. rewrite E in Hget.
    unfold ValueConversionRegistry.getConversion, ValueConversionRegistry.hasConversion,
      read, JsMap.has.
    rewrite (toPlatform_registered w p c a conversion value Hget),
      (fromPlatform_registered w p c a conversion value Hget), Hget.
    repeat split.
  - intro Hnone.
    assert (E : last_registered (conversion_match p c a) cs = None).
    { destruct (last_registered (conversion_match p c a) cs) as [v | ] eqn:E;
        [ | reflexivity].
      apply last_registered_In in E. destruct E as [Hin Hv].
      rewrite (Hnone v Hin) in Hv. discriminate Hv. }
    rewrite E in Hget.
    unfold ValueConversionRegistry.getConversion, ValueConversionRegistry.toPlatform,
      ValueConversionRegistry.fromPlatform, result, bind, read, ret, call; simpl.
    rewrite Hget.
    repeat split;
      now destruct (JsMap.get (ValueConversionRegistry.makeKey p c a) (conversions w0)).
Qed.

(** A test converter registered over the standard one for the Tuya level. *)
Lemma conversion_last_write_wins_override :
  let doubled :=
    {| vc_platform := TUYA; vc_capability := DIMMER; vc_attribute := "level";
       vc_toPlatform := fun value => Normal value;
       vc_fromPlatform := fun value => Normal JNull;
       vc_description := "Test conversion" |} in
  let w := exec (registerConversions [doubled]) (standard_world SampleHost.host empty_world) in
  ValueConversionRegistry.fromPlatform TUYA DIMMER "level" (JNum 500) w = (Normal JNull, w).
Proof.
  intros doubled w.
  pose proof (conversion_last_write_wins [doubled]
                (standard_world SampleHost.host empty_world) TUYA DIMMER "level" (JNum 500))
    as H.
  cbv zeta in H. destruct H as [H _].
  destruct (H doubled eq_refl) as (_ & _ & _ & Hfrom). exact Hfrom.
Defined.

Lemma hasConversion_result (w : World) (p : Platform) (c : DeviceCapability) (a : string) :
  result (ValueConversionRegistry.hasConversion p c a) w
  = Normal (JsMap.has (ValueConversionRegistry.makeKey p c a) (conversions w)).
Proof. reflexivity. Qed.

(** The triples of [initializeValueConversions]. *)
Lemma standard_conversions_registered (host : Host) (w0 : World) :
  conversions (standard_world host w0)
  = conversions
      (exec (registerConversions
               [ {| vc_platform := TUYA; vc_capability := DIMMER; vc_attribute := "level";
                    vc_toPlatform := tuya_level_toPlatform host;
                    vc_fromPlatform := tuya_level_fromPlatform host;
                    vc_description := "Tuya brightness scale: 0-1000 ↔ 0-100" |};
                 {| vc_platform := SMARTTHINGS; vc_capability := COLOR; vc_attribute := "hue";
                    vc_toPlatform := smartthings_hue_toPlatform host;
                    vc_fromPlatform := smartthings_hue_fromPlatform host;
                    vc_description := "SmartThings hue: 0-100% ↔ 0-360 degrees" |};
                 {| vc_platform := TUYA; vc_capability := COLOR; vc_attribute := "color";
                    vc_toPlatform := tuya_color_toPlatform host;
                    vc_fromPlatform := tuya_color_fromPlatform host;
                    vc_description := "Tuya color: HSV JSON string ↔ HSV object" |};
                 {| vc_platform := LUTRON; vc_capability := DIMMER; vc_attribute := "level";
                    vc_toPlatform := lutron_level_toPlatform host;
                    vc_fromPlatform := lutron_level_fromPlatform host;
                    vc_description := "Lutron output: Round 0.00-100.00 to 0-100" |} ])
            empty_world).
Proof. reflexivity. Qed.

(** X16. The standard conversions cover four triples and no other: the
    Tuya dimmer level, the SmartThings colour hue, the Tuya colour and the
    Lutron dimmer level.  For every other platform, capability and
    attribute (the saturation of a colour, the level of a SmartThings
    dimmer) [hasConversion] is false and both directions return the value
    unchanged. *)
Theorem standard_conversion_triples (host : Host) (w0 : World)
        (p : Platform) (c : DeviceCapability) (a : string) :
  let w := standard_world host w0 in
  let registered :=
    [ (TUYA, DIMMER, "level"); (SMARTTHINGS, COLOR, "hue");
      (TUYA, COLOR, "color"); (LUTRON, DIMMER, "level") ] in
  (result (ValueConversionRegistry.hasConversion p c a) w = Normal true
   <-> In (p, c, a) registered)
  /\ (~ In (p, c, a) registered ->
      result (ValueConversionRegistry.hasConversion p c a) w = Normal false
      /\ forall x, ValueConversionRegistry.toPlatform p c a x w = (Normal x, w)
                   /\ ValueConversionRegistry.fromPlatform p c a x w = (Normal x, w)).
Proof.
  intros w registered.
  assert (Hmatch : forall v, conversion_match p c a v = true
                             <-> (p, c, a) = (vc_platform v, vc_capability v, vc_attribute v)).
  { intro v. unfold conversion_match. rewrite !andb_true_iff, Platform_eqb_eq,
      DeviceCapability_eqb_eq, String.eqb_eq. split.
    - intros [[-> ->] ->]. reflexivity.
    - intro E. injection E as -> -> ->. auto. }
  pose proof (registerConversions_get
                [ {| vc_platform := TUYA; vc_capability := DIMMER; vc_attribute := "level";
                     vc_toPlatform := tuya_level_toPlatform host;
                     vc_fromPlatform := tuya_level_fromPlatform host;
                     vc_description := "Tuya brightness scale: 0-1000 ↔ 0-100" |};
                  {| vc_platform := SMARTTHINGS; vc_capability := COLOR; vc_attribute := "hue";
                     vc_toPlatform := smartthings_hue_toPlatform host;
                     vc_fromPlatform := smartthings_hue_fromPlatform host;
                     vc_description := "SmartThings hue: 0-100% ↔ 0-360 degrees" |};
                  {| vc_platform := TUYA; vc_capability := COLOR; vc_attribute := "color";
                     vc_toPlatform := tuya_color_toPlatform host;
                     vc_fromPlatform := tuya_color_fromPlatform host;
                     vc_description := "Tuya color: HSV JSON string ↔ HSV object" |};
                  {| vc_platform := LUTRON; vc_capability := DIMMER; vc_attribute := "level";
                     vc_toPlatform := lutron_level_toPlatform host;
                     vc_fromPlatform := lutron_level_fromPlatform host;
                     vc_description := "Lutron output: Round 0.00-100.00 to 0-100" |} ]
                empty_world p c a) as Hget.
  rewrite <- (standard_conversions_registered host w0) in Hget. fold w in Hget.
  assert (Hhas : result (ValueConversionRegistry.hasConversion p c a) w = Normal true
                 <-> In (p, c, a) registered).
  { rewrite hasConversion_result; unfold JsMap.has.
    rewrite Hget. split.
    - intro H.
      destruct (last_registered _ _) as [v | ] eqn:E; [ | discriminate H].
      apply last_registered_In in E. destruct E as [Hin Hv].
      apply Hmatch in Hv. rewrite Hv.
      simpl in Hin. destruct Hin as [<- | [<- | [<- | [<- | []]]]]; simpl; tauto.
    - intro Hin.
      destruct (last_registered _ _) as [v | ] eqn:E; [reflexivity | ].
      exfalso. simpl in Hin.
      match type of E with
      | last_registered _ ?l = None => pose proof (last_registered_None _ l E) as Hall
      end.
      destruct Hin as [H | [H | [H | [H | []]]]]; injection H as <- <- <-;
        [ specialize (Hall _ (or_introl eq_refl))
        | specialize (Hall _ (or_intror (or_introl eq_refl)))
        | specialize (Hall _ (or_intror (or_intror (or_introl eq_refl))))
        | specialize (Hall _ (or_intror (or_intror (or_intror (or_introl eq_refl))))) ];
        discriminate Hall. }
  split; [exact Hhas | ].
  intro Hnot.
  assert (Hnone : JsMap.get (ValueConversionRegistry.makeKey p c a) (conversions w) = None).
  { destruct (JsMap.get (ValueConversionRegistry.makeKey p c a) (conversions w)) eqn:E;
      [ | reflexivity].
    elim Hnot. apply Hhas.
    rewrite hasConversion_result; unfold JsMap.has.
    now rewrite E. }
  rewrite hasConversion_result.
  unfold ValueConversionRegistry.toPlatform, ValueConversionRegistry.fromPlatform,
    bind, read, ret, JsMap.has.
  rewrite Hnone. repeat split.
Qed.

(** The saturation of a colour passes through. *)
Lemma standard_conversion_triples_saturation :
  ~ In (SMARTTHINGS, COLOR, "saturation")
       [ (TUYA, DIMMER, "level"); (SMARTTHINGS, COLOR, "hue");
         (TUYA, COLOR, "color"); (LUTRON, DIMMER, "level") ]
  /\ result (ValueConversionRegistry.hasConversion SMARTTHINGS COLOR "saturation")
             (standard_world SampleHost.host empty_world) = Normal false.
Proof.
  assert (Hnot : ~ In (SMARTTHINGS, COLOR, "saturation")
                      [ (TUYA, DIMMER, "level"); (SMARTTHINGS, COLOR, "hue");
                        (TUYA, COLOR, "color"); (LUTRON, DIMMER, "level") ])
    by (simpl; intuition discriminate).
  split; [exact Hnot | ].
  exact (proj1 (proj2 (standard_conversion_triples SampleHost.host empty_world
                         SMARTTHINGS COLOR "saturation") Hnot)).
Defined.

(** ** Round trips of the numeric converters *)

(** A percentage of 0..100 sent to degrees and back is itself. *)
Lemma percent_round_trip (n : Z) :
  (0 <= n <= 100)%Z -> Math_round (Math_round (of_Z n * 3.6) / 3.6) = of_Z n.
Proof.
  revert n. apply (enumerate_below 100). intros k Hk.
  do 101 (destruct k as [ | k]; [vm_compute; reflexivity | ]).
  lia.
Qed.

(** A brightness of 0..100 sent to 0..255 and back is itself. *)
Lemma brightness_round_trip (n : Z) :
  (0 <= n <= 100)%Z -> Math_round (Math_round (of_Z n * 2.55) / 2.55) = of_Z n.
Proof.
  revert n. apply (enumerate_below 100). intros k Hk.
  do 101 (destruct k as [ | k]; [vm_compute; reflexivity | ]).
  lia.
Qed.

(** Rounding an integer of 0..360 gives the integer. *)
Lemma round_integer (n : Z) : (0 <= n <= 360)%Z -> Math_round (of_Z n) = of_Z n.
Proof.
  revert n. apply (enumerate_below 360). intros k Hk.
  do 361 (destruct k as [ | k]; [vm_compute; reflexivity | ]).
  lia.
Qed.

(** A platform level of 0..1000 read and sent back is the nearest multiple
    of ten, the upper one when two are equally near. *)
Lemma level_snap (t : Z) :
  (0 <= t <= 1000)%Z ->
  Math_round (Math_round (of_Z t / 10) * 10) = of_Z (10 * ((t + 5) / 10)).
Proof.
  revert t. apply (enumerate_below 1000). intros k Hk.
  do 1001 (destruct k as [ | k]; [vm_compute; reflexivity | ]).
  lia.
Qed.

(** X17. With the standard conversions, a SmartThings hue that is an
    integer percentage of 0..100 survives the trip to degrees and back:
    [toPlatform(fromPlatform(p))] is [p].  (The trip from degrees to
    percent and back does not always return the degrees.) *)
Theorem hue_percent_round_trip (host : Host) (w0 : World) (n : Z) :
  (0 <= n <= 100)%Z ->
  let w := standard_world host w0 in
  exists degrees,
    ValueConversionRegistry.fromPlatform SMARTTHINGS COLOR "hue" (JNum (of_Z n)) w
    = (Normal (JNum degrees), w)
    /\ ValueConversionRegistry.toPlatform SMARTTHINGS COLOR "hue" (JNum degrees) w
       = (Normal (JNum (of_Z n)), w).
Proof.
  intros Hn w. subst w. exists (Math_round (of_Z n * 3.6)).
  split; [apply hue_fromPlatform | ].
  rewrite hue_toPlatform. now rewrite percent_round_trip.
Qed.

Lemma hue_percent_round_trip_33 :
  exists degrees,
    ValueConversionRegistry.fromPlatform SMARTTHINGS COLOR "hue" (JNum (of_Z 33))
      (standard_world SampleHost.host empty_world)
    = (Normal (JNum degrees), standard_world SampleHost.host empty_world)
    /\ ValueConversionRegistry.toPlatform SMARTTHINGS COLOR "hue" (JNum degrees)
         (standard_world SampleHost.host empty_world)
       = (Normal (JNum (of_Z 33)), standard_world SampleHost.host empty_world).
Proof.
  apply (hue_percent_round_trip SampleHost.host empty_world 33). lia.
Defined.

(** X18. With the standard conversions, a Tuya level that is an integer of
    0..1000, read with [fromPlatform] and sent back with [toPlatform],
    arrives as the nearest multiple of ten (the upper one for a level
    ending in 5): a multiple of ten is kept, any other level is moved by
    up to 5. *)
Theorem tuya_level_snaps_to_ten (host : Host) (w0 : World) (t : Z) :
  (0 <= t <= 1000)%Z ->
  let w := standard_world host w0 in
  exists level,
    ValueConversionRegistry.fromPlatform TUYA DIMMER "level" (JNum (of_Z t)) w
    = (Normal (JNum level), w)
    /\ ValueConversionRegistry.toPlatform TUYA DIMMER "level" (JNum level) w
       = (Normal (JNum (of_Z (10 * ((t + 5) / 10)))), w)
    /\ (t mod 10 = 0 -> 10 * ((t + 5) / 10) = t)%Z
    /\ (t - 5 < 10 * ((t + 5) / 10) <= t + 5)%Z.
Proof.
  intros Ht w. subst w. exists (Math_round (of_Z t / 10)).
  split; [apply level_fromPlatform | split; [ | split] ].
  - rewrite level_toPlatform. now rewrite level_snap.
  - intro Hm.
    pose proof (Z.div_mod t 10 ltac:(lia)) as Hd. rewrite Hm in Hd.
    replace (t + 5)%Z with (5 + (t / 10) * 10)%Z by lia.
    rewrite Z.div_add by lia. change (5 / 10)%Z with 0%Z. lia.
  - pose proof (Z.div_mod (t + 5) 10 ltac:(lia)) as Hd.
    pose proof (Z.mod_pos_bound (t + 5) 10 ltac:(lia)) as Hb. lia.
Qed.

(** 755 is read as 76 and sent back as 760. *)
Lemma tuya_level_snaps_755 :
  exists level,
    ValueConversionRegistry.fromPlatform TUYA DIMMER "level" (JNum (of_Z 755))
      (standard_world SampleHost.host empty_world)
    = (Normal (JNum level), standard_world SampleHost.host empty_world)
    /\ ValueConversionRegistry.toPlatform TUYA DIMMER "level" (JNum level)
         (standard_world SampleHost.host empty_world)
       = (Normal (JNum (of_Z 760)), standard_world SampleHost.host empty_world).
Proof.
  destruct (tuya_level_snaps_to_ten SampleHost.host empty_world 755 ltac:(lia))
    as (level & Hfrom & Hto & _).
  exists level. split; [exact Hfrom | exact Hto].
Defined.

(** ** The Tuya colour *)

Section TuyaColor.

Variables (host : Host) (w0 : World).

Let w : World := standard_world host w0.

Lemma color_toPlatform (value : JsValue) :
  ValueConversionRegistry.toPlatform TUYA COLOR "color" value w
  = (tuya_color_toPlatform host value, w).
Proof. exact (toPlatform_registered w _ _ _ _ value (standard_tuya_color host w0)). Qed.

Lemma color_fromPlatform (value : JsValue) :
  ValueConversionRegistry.fromPlatform TUYA COLOR "color" value w
  = (tuya_color_fromPlatform host value, w).
Proof. exact (fromPlatform_registered w _ _ _ _ value (standard_tuya_color host w0)). Qed.

End TuyaColor.

(** X19. With the standard conversions, a unified colour whose hue is an
    integer of 0..360 and whose saturation and value are integers of
    0..100 survives the trip to the Tuya string and back, on every host
    whose [JSON.parse] reads back the object that its [JSON.stringify]
    wrote: the value is sent as [Math.round(v * 2.55)] and comes back as
    [v]. *)
Theorem tuya_color_round_trip (host : Host) (w0 : World) (h s v : Z) :
  (0 <= h <= 360)%Z -> (0 <= s <= 100)%Z -> (0 <= v <= 100)%Z ->
  let w := standard_world host w0 in
  let unified := JObj [("h", JNum (of_Z h)); ("s", JNum (of_Z s)); ("v", JNum (of_Z v))] in
  let sent :=
    JObj [("h", JNum (of_Z h)); ("s", JNum (of_Z s));
          ("v", JNum (Math_round (of_Z v * 2.55)))] in
  JSON_parse host (JSON_stringify host sent) = Normal sent ->
  ValueConversionRegistry.toPlatform TUYA COLOR "color" unified w
  = (Normal (JSON_stringify host sent), w)
  /\ ValueConversionRegistry.fromPlatform TUYA COLOR "color" (JSON_stringify host sent) w
     = (Normal unified, w).
Proof.
  intros Hh Hs Hv w unified sent Hparse. subst w. split.
  - rewrite color_toPlatform. unfold tuya_color_toPlatform, unified, sent. simpl.
    rewrite (round_integer h Hh), (round_integer s) by lia. reflexivity.
  - rewrite color_fromPlatform. unfold tuya_color_fromPlatform. rewrite Hparse.
    unfold unified, sent. simpl. now rewrite (brightness_round_trip v Hv).
Qed.

(** Half brightness: 50 is sent as 127 and comes back as 50. *)
Lemma tuya_color_round_trip_half :
  let unified := JObj [("h", JNum (of_Z 180)); ("s", JNum (of_Z 100)); ("v", JNum (of_Z 50))] in
  let sent := JObj [("h", JNum (of_Z 180)); ("s", JNum (of_Z 100)); ("v", JNum 127)] in
  ValueConversionRegistry.fromPlatform TUYA COLOR "color"
    (JSON_stringify SampleHost.host sent) (standard_world SampleHost.host empty_world)
  = (Normal unified, standard_world SampleHost.host empty_world).
Proof.
  intros unified sent.
  apply (tuya_color_round_trip SampleHost.host empty_world 180 100 50); try lia.
  vm_compute. reflexivity.
Defined.

(** X20. The Tuya colour converter does not validate what [JSON.parse]
    returns.  From an object without [v] it makes a colour whose [v] is NaN,
    with [h] and [s] as they are in the object, [undefined] if absent, and
    raises nothing; from [null] it raises a [TypeError].  The registries
    stay as they were. *)
Theorem tuya_color_unvalidated (host : Host) (w0 : World) (text : JsValue) :
  let w := standard_world host w0 in
  (forall fields,
      JSON_parse host text = Normal (JObj fields) ->
      own_field "v" fields = None ->
      ValueConversionRegistry.fromPlatform TUYA COLOR "color" text w
      = (Normal (JObj [ ("h", match own_field "h" fields with
                              | Some x => x
                              | None => JUndefined
                              end);
                        ("s", match own_field "s" fields with
                              | Some x => x
                              | None => JUndefined
                              end);
                        ("v", JNum PrimFloat.nan) ]), w))
  /\ (JSON_parse host text = Normal JNull ->
      ValueConversionRegistry.fromPlatform TUYA COLOR "color" text w
      = (Throw TypeError, w)).
Proof.
  intro w. subst w. split.
  - intros fields Hparse Hv. rewrite color_fromPlatform.
    unfold tuya_color_fromPlatform. rewrite Hparse. simpl. rewrite Hv. simpl.
    now destruct (own_field "h" fields), (own_field "s" fields).
  - intro Hparse. rewrite color_fromPlatform.
    unfold tuya_color_fromPlatform. now rewrite Hparse.
Qed.

(** The empty object. *)
Lemma tuya_color_unvalidated_empty :
  ValueConversionRegistry.fromPlatform TUYA COLOR "color" (JStr "{}")
    (standard_world SampleHost.host empty_world)
  = (Normal (JObj [("h", JUndefined); ("s", JUndefined); ("v", JNum PrimFloat.nan)]),
     standard_world SampleHost.host empty_world).
Proof.
  apply (proj1 (tuya_color_unvalidated SampleHost.host empty_world (JStr "{}")) []);
    reflexivity.
Defined.

(** ** Keys *)

(** X21. The string keys of the registries tell the entries apart: two
    (platform, name) pairs have the same [CapabilityRegistry] key only when
    they are the same pair, and two (platform, capability, attribute)
    triples the same [ValueConversionRegistry] key only when they are the
    same triple, also when a name or an attribute has colons in it, and
    although the value of one capability ([color]) starts another
    ([colorTemperature]).  A device identifier made by
    [createUniversalDeviceId] determines its two parts in the same way. *)
Theorem registry_keys_injective :
  (forall p q name name',
      CapabilityRegistry.makeKey p name = CapabilityRegistry.makeKey q name' ->
      p = q /\ name = name')
  /\ (forall p q c d a a',
      ValueConversionRegistry.makeKey p c a = ValueConversionRegistry.makeKey q d a' ->
      p = q /\ c = d /\ a = a')
  /\ (forall p q id id',
      createUniversalDeviceId p id = createUniversalDeviceId q id' -> p = q /\ id = id').
Proof.
  split; [ | split].
  - exact makeKey_inj.
  - exact conversion_makeKey_inj.
  - exact makeKey_inj.
Qed.

(** Names with colons in them. *)
Lemma registry_keys_injective_colons :
  CapabilityRegistry.makeKey TUYA "switch:1" <> CapabilityRegistry.makeKey TUYA "switch"
  /\ ValueConversionRegistry.makeKey TUYA COLOR "temperature:x"
     <> ValueConversionRegistry.makeKey TUYA COLOR_TEMPERATURE "x".
Proof.
  destruct registry_keys_injective as (H2 & H3 & _). split.
  - intro E. apply H2 in E. destruct E as [_ E]. discriminate E.
  - intro E. apply H3 in E. destruct E as (_ & E & _). discriminate E.
Defined.
